(** * ComfyUI-Folder-Images-Preview: the contact-sheet renderer

    A shallow embedding of [FolderImagesPreview.generate_preview] and
    [FolderImagesPreview.wrap_text] (src/__init__.py), followed by the
    properties of the layout and rendering engine.

    Python values are modelled as follows: [int] as [Z] ([//] and [%] are
    [Z.div] and [Z.modulo], which agree with Python's floor division for a
    non-zero divisor), [str] as [string] (code points below 256), [float]
    as IEEE binary64 through the standard library's [SpecFloat], a raised
    exception as the [Raise] branch of [result]. *)

From Stdlib Require Import ZArith List Bool Lia.
From Stdlib Require Import Ascii String DecimalString DecimalPos DecimalZ.
From Stdlib Require Import SpecFloat.
Import ListNotations.

Set Warnings "-register-all".

Local Open Scope string_scope.
Local Open Scope Z_scope.

(** ** Python string primitives *)

(** The code point of a character. *)
Definition code (c : ascii) : Z := Z.of_N (N_of_ascii c).

(** [s.lstrip(chars)] and [s.rstrip(chars)], with the character set given
    as a predicate. *)
Fixpoint lstrip (p : ascii -> bool) (s : string) : string :=
  match s with
  | EmptyString => EmptyString
  | String c s' => if p c then lstrip p s' else s
  end.

Fixpoint rstrip (p : ascii -> bool) (s : string) : string :=
  match s with
  | EmptyString => EmptyString
  | String c s' =>
      match rstrip p s' with
      | EmptyString => if p c then EmptyString else String c EmptyString
      | r => String c r
      end
  end.

(** [s[i:i+n]] for non-negative [i]: out-of-range slices are shortened. *)
Definition slice (i n : nat) (s : string) : string := substring i n s.

(** [str.lower()] on the ASCII letters. *)
Definition lower_char (c : ascii) : ascii :=
  if (65 <=? code c) && (code c <=? 90)
  then ascii_of_N (N_of_ascii c + 32) else c.

Fixpoint lower (s : string) : string :=
  match s with
  | EmptyString => EmptyString
  | String c s' => String (lower_char c) (lower s')
  end.

Fixpoint string_rev_acc (s acc : string) : string :=
  match s with
  | EmptyString => acc
  | String c s' => string_rev_acc s' (String c acc)
  end.

Definition string_rev (s : string) : string := string_rev_acc s EmptyString.

(** [s.endswith(suffix)]. *)
Definition endswith (s suffix : string) : bool :=
  prefix (string_rev suffix) (string_rev s).

(** [s.endswith(tuple)]. *)
Definition endswith_any (s : string) (suffixes : list string) : bool :=
  existsb (endswith s) suffixes.

(** [str(n)] for an integer. *)
Definition str_of_int (n : Z) : string := NilZero.string_of_int (Z.to_int n).

(** *** [int(s, 16)]

    Leading and trailing whitespace is dropped, then an optional sign, an
    optional [0x] prefix (with one underscore allowed after it), and
    hexadecimal digits separated by single underscores; anything else
    raises [ValueError], modelled as [None]. *)

Definition hex_digit_value (c : ascii) : option Z :=
  let n := code c in
  if (48 <=? n) && (n <=? 57) then Some (n - 48)
  else if (97 <=? n) && (n <=? 102) then Some (n - 87)
  else if (65 <=? n) && (n <=? 70) then Some (n - 55)
  else None.

Definition is_int_space (c : ascii) : bool :=
  let n := code c in
  ((9 <=? n) && (n <=? 13)) || (n =? 32) || (n =? 133) || (n =? 160).

Definition is_sign (c : ascii) : bool := (code c =? 43) || (code c =? 45).

Definition is_underscore (c : ascii) : bool := code c =? 95.

(** Digits with single underscores between them; [prev_us] tells whether
    the previous character was an underscore, [acc] is the value so far. *)
Fixpoint hex_digits (s : string) (prev_us : bool) (acc : Z) : option Z :=
  match s with
  | EmptyString => if prev_us then None else Some acc
  | String c s' =>
      if is_underscore c then
        if prev_us then None else hex_digits s' true acc
      else
        match hex_digit_value c with
        | Some d => hex_digits s' false (16 * acc + d)
        | None => None
        end
  end.

Definition strip_0x (s : string) : string :=
  match s with
  | String c0 (String c1 s') =>
      if (code c0 =? 48) && ((code c1 =? 120) || (code c1 =? 88)) then
        match s' with
        | String u s'' => if is_underscore u then s'' else s'
        | EmptyString => s'
        end
      else s
  | _ => s
  end.

Definition int_base16 (s : string) : option Z :=
  let s := rstrip is_int_space (lstrip is_int_space s) in
  let '(neg, s) :=
    match s with
    | String c s' => if is_sign c then (code c =? 45, s') else (false, s)
    | EmptyString => (false, s)
    end in
  match strip_0x s with
  | EmptyString => None
  | String c _ as body =>
      if is_underscore c then None
      else match hex_digits body false 0 with
           | Some v => Some (if neg then - v else v)
           | None => None
           end
  end.

(** ** ColorParser (lines 39-44) *)

Definition rgb : Type := Z * Z * Z.

Definition is_hash (c : ascii) : bool := code c =? 35.

(** [tuple(int(color.lstrip('#')[i:i+2], 16) for i in (0, 2, 4))]; [None]
    when one of the three conversions raises [ValueError]. *)
Definition hex_to_rgb (color : string) : option rgb :=
  let h := lstrip is_hash color in
  match int_base16 (slice 0 2 h) with
  | None => None
  | Some r =>
      match int_base16 (slice 2 2 h) with
      | None => None
      | Some g =>
          match int_base16 (slice 4 2 h) with
          | None => None
          | Some b => Some (r, g, b)
          end
      end
  end.

(** ** Paths ([os.path] on a POSIX host) *)

Definition is_sep (c : ascii) : bool := code c =? 47.

Definition ends_with_sep (s : string) : bool :=
  match string_rev s with
  | String c _ => is_sep c
  | EmptyString => false
  end.

(** [os.path.join(a, b)]. *)
Definition join (a b : string) : string :=
  match b with
  | String c _ =>
      if is_sep c then b
      else if (a =? "")%string || ends_with_sep a then a ++ b
      else a ++ "/" ++ b
  | EmptyString =>
      if (a =? "")%string || ends_with_sep a then a else a ++ "/"
  end%string.

(** The part of [s] after its last separator, scanning from the left:
    [cur] is the part read since the last separator. *)
Fixpoint after_last_sep (s cur : string) : string :=
  match s with
  | EmptyString => string_rev cur
  | String c s' =>
      if is_sep c then after_last_sep s' EmptyString
      else after_last_sep s' (String c cur)
  end.

(** [os.path.basename(p)]. *)
Definition basename (p : string) : string := after_last_sep p EmptyString.

Definition is_dot (c : ascii) : bool := code c =? 46.

(** [os.path.splitext] on a name without a directory part, as the files
    of a listing are: the extension starts at the last dot, unless only
    dots precede it.  [stem_rev] is the name read so far, reversed. *)
Fixpoint last_dot_split (s stem_rev : string) (seen_non_dot : bool)
  : option (string * string) :=
  match s with
  | EmptyString => None
  | String c s' =>
      match last_dot_split s' (String c stem_rev)
                           (seen_non_dot || negb (is_dot c)) with
      | Some r => Some r
      | None =>
          if is_dot c && seen_non_dot then Some (string_rev stem_rev, s)
          else None
      end
  end.

Definition splitext (name : string) : string * string :=
  match last_dot_split name EmptyString false with
  | Some r => r
  | None => (name, EmptyString)
  end.

(** ** ImageDiscovery (lines 28, 46-58) *)

Definition supported_formats : list string :=
  [".png"; ".jpg"; ".jpeg"; ".gif"; ".tiff"; ".webp"; ".bmp"].

(** [f.lower().endswith(supported_formats)]. *)
Definition eligible (f : string) : bool :=
  endswith_any (lower f) supported_formats.

(** A directory listing, in the order the file system gives it.  [regular]
    is [os.path.isfile] of a non-directory entry; [symlink] marks a
    directory reached through a link, which [os.walk] lists but does not
    enter. *)
Inductive fs_node : Type :=
| File (name : string) (regular : bool)
| Dir (name : string) (symlink : bool) (children : list fs_node).

(** Induction over a listing tree, with the property known for every
    entry of a directory. *)
Fixpoint fs_node_tree_ind (P : fs_node -> Prop)
  (HFile : forall name regular, P (File name regular))
  (HDir : forall name symlink children,
      Forall P children -> P (Dir name symlink children))
  (d : fs_node) {struct d} : P d :=
  match d with
  | File name regular => HFile name regular
  | Dir name symlink children =>
      HDir name symlink children
           ((fix all (l : list fs_node) : Forall P l :=
               match l with
               | [] => Forall_nil P
               | e :: l' =>
                   Forall_cons e (fs_node_tree_ind P HFile HDir e) (all l')
               end) children)
  end.

Definition node_name (n : fs_node) : string :=
  match n with
  | File name _ => name
  | Dir name _ _ => name
  end.

Definition is_dir_node (n : fs_node) : bool :=
  match n with
  | Dir _ _ _ => true
  | File _ _ => false
  end.

Definition is_regular (n : fs_node) : bool :=
  match n with
  | File _ r => r
  | Dir _ _ _ => false
  end.

Definition dirnames (entries : list fs_node) : list string :=
  map node_name (filter is_dir_node entries).

Definition filenames (entries : list fs_node) : list string :=
  map node_name (filter (fun n => negb (is_dir_node n)) entries).

(** [os.walk(top)], top-down: the triple of [top] first, then the walk of
    each sub-directory in listing order. *)
Fixpoint walk_dir (top : string) (d : fs_node) {struct d}
  : list (string * list string * list string) :=
  match d with
  | File _ _ => []
  | Dir _ _ entries =>
      (top, dirnames entries, filenames entries) ::
      (fix walk_children (es : list fs_node) :=
         match es with
         | [] => []
         | e :: es' =>
             (match e with
              | Dir name false _ => walk_dir (join top name) e
              | _ => []
              end ++ walk_children es')%list
         end) entries
  end.

Definition walk (top : string) (entries : list fs_node)
  : list (string * list string * list string) :=
  walk_dir top (Dir top false entries).

(** A discovered file: [(root, f)]. *)
Abbreviation image_item := (string * string)%type.

(** The loop of lines 49-52: a directory's eligible files are appended as
    one group when there is at least one. *)
Definition collect_step (image_files : list (list image_item))
  (triple : string * list string * list string) : list (list image_item) :=
  let '(root, _, files) := triple in
  let subfolder_images := map (pair root) (filter eligible files) in
  match subfolder_images with
  | [] => image_files
  | _ :: _ => (image_files ++ [subfolder_images])%list
  end.

Definition discover_recursive (folder_path : string) (entries : list fs_node)
  : list (list image_item) :=
  fold_left collect_step (walk folder_path entries) [].

(** Lines 54-56: one group, of the regular files of the folder itself. *)
Definition discover_flat (folder_path : string) (entries : list fs_node)
  : list (list image_item) :=
  [map (fun n => (folder_path, node_name n))
       (filter (fun n => is_regular n && eligible (node_name n)) entries)].

Definition discover (include_subfolders : bool) (folder_path : string)
  (entries : list fs_node) : list (list image_item) :=
  if include_subfolders then discover_recursive folder_path entries
  else discover_flat folder_path entries.

(** [len(l)] and [sum(...)] over the groups. *)
Definition len {A : Type} (l : list A) : Z := Z.of_nat (List.length l).

Definition sum (l : list Z) : Z := fold_left Z.add l 0.

Definition total_images (image_files : list (list image_item)) : Z :=
  sum (map len image_files).

(** ** Exceptions *)

Inductive exn : Type :=
| ValueError (msg : string)
| FileNotFoundError (msg : string)
| ZeroDivisionError (msg : string)
| OtherError (msg : string).

Definition exn_text (e : exn) : string :=
  match e with
  | ValueError m | FileNotFoundError m | ZeroDivisionError m
  | OtherError m => m
  end.

Inductive result (A : Type) : Type :=
| Ok (a : A)
| Raise (e : exn).

Arguments Ok {A} a.
Arguments Raise {A} e.

(** ** GeometryPlanner (lines 60-93) *)

Definition thumbnail_size : Z := 256.
Definition text_height : Z := 60.
Definition grid_spacing : Z := 48.
Definition stats_height : Z := 40.
Definition footer_height : Z := 40.
Definition subfolder_title_height : Z := 40.
Definition line_thickness : Z := 2.

Definition output_width (images_per_row : Z) : Z :=
  images_per_row * thumbnail_size + (images_per_row + 1) * grid_spacing.

Definition output_height (image_files : list (list image_item))
  (images_per_row : Z) (include_subfolders : bool) : Z :=
  if total_images image_files =? 0 then
    grid_spacing + stats_height + grid_spacing +
    line_thickness +
    grid_spacing +
    grid_spacing +
    line_thickness +
    footer_height + grid_spacing
  else if include_subfolders then
    let rows :=
      sum (map (fun subfolder =>
                  (len subfolder + images_per_row - 1) / images_per_row)
               image_files) in
    grid_spacing + stats_height + grid_spacing +
    line_thickness + grid_spacing +
    len image_files * (subfolder_title_height + grid_spacing) +
    rows * (thumbnail_size + text_height + grid_spacing) +
    grid_spacing + line_thickness +
    footer_height + grid_spacing
  else
    let rows :=
      (total_images image_files + images_per_row - 1) / images_per_row in
    grid_spacing + stats_height + grid_spacing +
    line_thickness + grid_spacing +
    rows * (thumbnail_size + text_height + grid_spacing) +
    grid_spacing + line_thickness +
    footer_height + grid_spacing.

(** Lines 107-112. *)
Definition stats_text (total : Z) : string :=
  if total =? 0 then "Not found any image"
  else if total =? 1 then "Found 1 image"
  else ("Found " ++ str_of_int total ++ " images")%string.

(** ** ThumbnailNormalizer (lines 151-172) *)

(** Python floats are IEEE binary64.  An [int] below 2^53 converts
    exactly, so [a / b] on such integers is the correctly rounded quotient
    of the two converted values. *)
Definition float_of_int (n : Z) : spec_float := binary_normalize 53 1024 n 0 false.
Definition float_div : spec_float -> spec_float -> spec_float := SFdiv 53 1024.
Definition float_mul : spec_float -> spec_float -> spec_float := SFmul 53 1024.

(** [int(x)]: truncation towards zero; infinities and NaN raise. *)
Definition int_of_float (x : spec_float) : option Z :=
  match x with
  | S754_zero _ => Some 0
  | S754_finite s m e =>
      let v := Z.shiftl (Zpos m) e in
      Some (if s then - v else v)
  | S754_infinity _ | S754_nan => None
  end.

(** [int(a * (thumbnail_size / b))]. *)
Definition scale_dim (a b : Z) : result Z :=
  if b =? 0 then Raise (ZeroDivisionError "division by zero")
  else
    match int_of_float
            (float_mul (float_of_int a)
                       (float_div (float_of_int thumbnail_size)
                                  (float_of_int b))) with
    | Some n => Ok n
    | None => Raise (OtherError "cannot convert float to integer")
    end.

(** Lines 153-158. *)
Definition scaled_size (img_width img_height : Z) : result (Z * Z) :=
  if img_width >? img_height then
    match scale_dim img_height img_width with
    | Ok new_height => Ok (thumbnail_size, new_height)
    | Raise e => Raise e
    end
  else
    match scale_dim img_width img_height with
    | Ok new_width => Ok (new_width, thumbnail_size)
    | Raise e => Raise e
    end.

(** The thumbnail: a [canvas_size] buffer of [fill] on which the source,
    resized to [resized] and then cut to [crop] when given, is pasted at
    [paste_at]. *)
Record thumbnail : Type := {
  source : string;
  canvas_size : Z * Z;
  fill : rgb;
  resized : Z * Z;
  crop : option (Z * Z * Z * Z);
  paste_at : Z * Z
}.

(** Lines 152-172.  [Image.resize] rejects a size with a side below 1
    ([ValueError: height and width must be > 0]). *)
Definition make_thumbnail (txt_color : rgb) (image_path : string)
  (size : Z * Z) : result thumbnail :=
  let '(img_width, img_height) := size in
  match scaled_size img_width img_height with
  | Raise e => Raise e
  | Ok (new_width, new_height) =>
      if (new_width <? 1) || (new_height <? 1) then
        Raise (ValueError "height and width must be > 0")
      else
        let paste_x := (thumbnail_size - new_width) / 2 in
        let paste_y := (thumbnail_size - new_height) / 2 in
        if (new_width >? thumbnail_size) || (new_height >? thumbnail_size)
        then
          let left := (new_width - thumbnail_size) / 2 in
          let top := (new_height - thumbnail_size) / 2 in
          Ok {| source := image_path;
                canvas_size := (thumbnail_size, thumbnail_size);
                fill := txt_color;
                resized := (new_width, new_height);
                crop := Some (left, top,
                              left + thumbnail_size, top + thumbnail_size);
                paste_at := (0, 0) |}
        else
          Ok {| source := image_path;
                canvas_size := (thumbnail_size, thumbnail_size);
                fill := txt_color;
                resized := (new_width, new_height);
                crop := None;
                paste_at := (paste_x, paste_y) |}
  end.

(** The size of what is pasted on the thumbnail canvas. *)
Definition pasted_size (t : thumbnail) : Z * Z :=
  match crop t with
  | Some (x0, y0, x1, y1) => (x1 - x0, y1 - y0)
  | None => resized t
  end.

(** ** TextLayoutEngine (lines 224-243, 193-196) *)

Definition bbox_width (bbox : Z * Z * Z * Z) : Z :=
  let '(x0, _, x1, _) := bbox in x1 - x0.

(** The loop of [wrap_text]: [lines] and [current_line] are its two
    variables, [getbbox] is [font.getbbox]. *)
Fixpoint wrap_loop (getbbox : string -> Z * Z * Z * Z) (max_width : Z)
  (text : string) (lines : list string) (current_line : string)
  : list string * string :=
  match text with
  | EmptyString => (lines, current_line)
  | String char text' =>
      let test_line := (current_line ++ String char EmptyString)%string in
      let width := bbox_width (getbbox test_line) in
      if width <=? max_width then
        wrap_loop getbbox max_width text' lines test_line
      else
        wrap_loop getbbox max_width text' (lines ++ [current_line])%list
                  (String char EmptyString)
  end.

Definition wrap_text (text : string) (getbbox : string -> Z * Z * Z * Z)
  (max_width : Z) : list string :=
  let '(lines, current_line) := wrap_loop getbbox max_width text [] "" in
  match current_line with
  | EmptyString => lines
  | String _ _ => (lines ++ [current_line])%list
  end.

(** Lines 194-196: [wrapped_text[-1].rstrip("...") + "..."] on the first
    two lines. *)
Definition truncate_caption (wrapped_text : list string) : list string :=
  if 2 <? len wrapped_text then
    match firstn 2 wrapped_text with
    | [l0; l1] => [l0; (rstrip is_dot l1 ++ "...")%string]
    | short => short
    end
  else wrapped_text.

(** ** Compositor (lines 26-222) *)

(** What the render reads from its host: [fs path] is the listing of
    [path] when it is an existing directory (one that can be listed: a
    directory whose listing fails is not modelled), [module_dir] the
    directory of the module (which holds the font), [font_error] the
    failure of [ImageFont.truetype] if any, [open_image path] the size of
    [Image.open(path).convert("RGB")] or the exception it raises,
    [getbbox] the bounding box of a string in the 20-point font. *)
Record world : Type := {
  fs : string -> option (list fs_node);
  module_dir : string;
  font_exists : bool;
  font_error : option string;
  open_image : string -> result (Z * Z);
  getbbox : string -> Z * Z * Z * Z;
  relpath : string -> string -> string
}.

(** [datetime.now()] and [strftime("Created on %Y-%m-%d %H:%M:%S")]. *)
Record datetime : Type := {
  year : Z; month : Z; day : Z; hour : Z; minute : Z; second : Z
}.

Definition two_digits (n : Z) : string :=
  if n <? 10 then ("0" ++ str_of_int n)%string else str_of_int n.

Definition strftime_created_on (t : datetime) : string :=
  ("Created on " ++ str_of_int (year t) ++ "-" ++ two_digits (month t) ++ "-"
   ++ two_digits (day t) ++ " " ++ two_digits (hour t) ++ ":"
   ++ two_digits (minute t) ++ ":" ++ two_digits (second t))%string.

(** The calls made on the canvas, in order. *)
Inductive draw_op : Type :=
| DrawText (xy : Z * Z) (text : string) (fill : rgb) (font_size : Z)
| DrawRectangle (xy0 xy1 : Z * Z) (fill : rgb)
| Paste (thumb : thumbnail) (xy : Z * Z).

(** The variables of the item loop: the running index, the canvas calls so
    far, and the lines printed for skipped items. *)
Record painter : Type := {
  image_idx : Z;
  ops : list draw_op;
  printed : list string
}.

Definition font_path (w : world) : string :=
  join (join (module_dir w) "font") "lanting.ttf".

(** Lines 184-189. *)
Definition display_name (w : world) (folder_path : string)
  (include_subfolders : bool) (root image_file : string) : string :=
  if include_subfolders then
    let rel_path :=
      if negb (root =? folder_path)%string then relpath w root folder_path
      else "" in
    let filename := fst (splitext image_file) in
    match rel_path with
    | EmptyString => filename
    | String _ _ => join rel_path filename
    end
  else fst (splitext image_file).

(** Lines 198-199. *)
Fixpoint draw_lines (i : Z) (lines : list string) (x text_y : Z)
  (txt_color : rgb) : list draw_op :=
  match lines with
  | [] => []
  | line :: lines' =>
      DrawText (x + 5, text_y + i * 25) line txt_color 20
      :: draw_lines (i + 1) lines' x text_y txt_color
  end.

(** Lines 146-172: open and normalise one image. *)
Definition load_thumbnail (w : world) (txt_color : rgb)
  (image_path : string) : result thumbnail :=
  match open_image w image_path with
  | Ok size => make_thumbnail txt_color image_path size
  | Raise e => Raise e
  end.

(** Lines 174-178: the grid position of the item drawn when the running
    index is [image_idx], in a group of [section_len] items whose first
    row starts at [current_y]. *)
Definition grid_position (images_per_row section_len current_y image_idx : Z)
  : Z * Z :=
  let row := (image_idx mod section_len) / images_per_row in
  let col := (image_idx mod section_len) mod images_per_row in
  let x := grid_spacing + col * (thumbnail_size + grid_spacing) in
  let y := current_y + row * (thumbnail_size + text_height + grid_spacing) in
  (x, y).

(** The body of the item loop (lines 145-205); [section_len] is
    [len(subfolder_images)]. *)
Definition draw_item (w : world) (folder_path : string)
  (images_per_row : Z) (include_subfolders : bool) (txt_color : rgb)
  (section_len current_y : Z) (st : painter) (item : image_item) : painter :=
  let '(root, image_file) := item in
  let image_path := join root image_file in
  match load_thumbnail w txt_color image_path with
  | Ok thumb =>
      let '(x, y) :=
        grid_position images_per_row section_len current_y (image_idx st) in
      let name := display_name w folder_path include_subfolders root image_file in
      let max_width := thumbnail_size - 10 in
      let text_y := y + thumbnail_size + 5 in
      let wrapped_text :=
        truncate_caption (wrap_text name (getbbox w) max_width) in
      {| image_idx := image_idx st + 1;
         ops := (ops st ++ Paste thumb (x, y)
                   :: draw_lines 0 (firstn 2 wrapped_text) x text_y txt_color)%list;
         printed := printed st |}
  | Raise e =>
      {| image_idx := image_idx st;
         ops := ops st;
         printed := (printed st ++
                     [("Error loading image '" ++ image_path ++ "': "
                       ++ exn_text e)%string])%list |}
  end.

(** The body of the section loop (lines 136-209). *)
Definition draw_section (w : world) (folder_path : string)
  (images_per_row : Z) (include_subfolders : bool) (txt_color : rgb)
  (st : Z * painter) (subfolder_images : list image_item) : Z * painter :=
  let '(current_y, p) := st in
  let '(current_y, p) :=
    match subfolder_images with
    | (subfolder_path, _) :: _ =>
        if include_subfolders then
          let subfolder_name :=
            if (subfolder_path =? folder_path)%string then basename folder_path
            else relpath w subfolder_path folder_path in
          let subfolder_text :=
            ("- " ++ subfolder_name ++ " ("
             ++ str_of_int (len subfolder_images) ++ " images)")%string in
          (current_y + subfolder_title_height + grid_spacing,
           {| image_idx := image_idx p;
              ops := (ops p ++ [DrawText (grid_spacing, current_y)
                                         subfolder_text txt_color 24])%list;
              printed := printed p |})
        else (current_y, p)
    | [] => (current_y, p)
    end in
  let p :=
    fold_left (draw_item w folder_path images_per_row include_subfolders
                         txt_color (len subfolder_images) current_y)
              subfolder_images p in
  if include_subfolders then
    let rows_in_subfolder :=
      (len subfolder_images + images_per_row - 1) / images_per_row in
    (current_y + rows_in_subfolder * (thumbnail_size + text_height + grid_spacing), p)
  else (current_y, p).

(** The finished canvas, as handed to the tensor conversion, with the
    lines printed on the way. *)
Record rendering : Type := {
  width : Z;
  height : Z;
  background : rgb;
  drawn : list draw_op;
  log : list string
}.

Definition invalid_color_message : string :=
  "Background color or text color must be a valid HEX value, e.g., #FFFFFF".

(** Lines 115-118 and 211-216 (also 123-127): a divider and the footer. *)
Definition divider (images_per_row line_y : Z) (txt_color : rgb) : draw_op :=
  DrawRectangle (grid_spacing, line_y)
                (output_width images_per_row - grid_spacing, line_y + line_thickness)
                txt_color.

Definition footer (images_per_row out_height : Z) (txt_color : rgb)
  (current_time : string) : list draw_op :=
  let line_y_bottom :=
    out_height - footer_height - grid_spacing - line_thickness - grid_spacing in
  [divider images_per_row line_y_bottom txt_color;
   DrawText (grid_spacing, line_y_bottom + line_thickness + grid_spacing)
            current_time txt_color 24].

(** Lines 26-222.  The canvas sides are integers without bound: the
    limits [Image.new] puts on the size of a canvas are not modelled. *)
Definition generate_preview (w : world) (now : datetime)
  (folder_path : string) (images_per_row : Z) (include_subfolders : bool)
  (background_color text_color : string) : result rendering :=
  match fs w folder_path with
  | None =>
      Raise (ValueError ("The folder path '" ++ folder_path
                         ++ "' does not exist or is not a directory!")%string)
  | Some entries =>
  if negb (font_exists w) then
    Raise (FileNotFoundError ("Font file '" ++ font_path w ++ "' not found!")%string)
  else
  match hex_to_rgb background_color, hex_to_rgb text_color with
  | Some bg_color, Some txt_color =>
  let image_files := discover include_subfolders folder_path entries in
  let total := total_images image_files in
  if negb (total =? 0) && (images_per_row =? 0) then
    Raise (ZeroDivisionError "integer division or modulo by zero")
  else
  let out_width := output_width images_per_row in
  let out_height := output_height image_files images_per_row include_subfolders in
  if (out_width <? 0) || (out_height <? 0) then
    Raise (ValueError "Width and height must be >= 0")
  else
  match font_error w with
  | Some e =>
      Raise (ValueError ("Failed to load font '" ++ font_path w ++ "': " ++ e)%string)
  | None =>
  let line_y_top := grid_spacing + stats_height + grid_spacing in
  let header :=
    [DrawText (grid_spacing, grid_spacing) (stats_text total) txt_color 24;
     divider images_per_row line_y_top txt_color] in
  let current_time := strftime_created_on now in
  if total =? 0 then
    Ok {| width := out_width; height := out_height; background := bg_color;
          drawn := (header ++ footer images_per_row out_height txt_color current_time)%list;
          log := [] |}
  else
    let current_y := line_y_top + line_thickness + grid_spacing in
    let '(_, p) :=
      fold_left (draw_section w folder_path images_per_row include_subfolders txt_color)
                image_files
                (current_y, {| image_idx := 0; ops := header; printed := [] |}) in
    Ok {| width := out_width; height := out_height; background := bg_color;
          drawn := (ops p ++ footer images_per_row out_height txt_color current_time)%list;
          log := printed p |}
  end
  | _, _ => Raise (ValueError invalid_color_message)
  end
  end.

(** ** Vocabulary of the properties *)

(** Every character, for exhaustive checks of the character tests. *)
Definition all_ascii : list ascii := map ascii_of_nat (seq 0 256).

(** [sub in s]. *)
Fixpoint contains (s sub : string) : bool :=
  prefix sub s ||
  match s with
  | EmptyString => false
  | String _ s' => contains s' sub
  end.

(** The decimal reading of a string, the inverse of [str]. *)
Definition int_of_decimal (s : string) : option Z :=
  option_map Z.of_int (NilZero.int_of_string s).

Definition is_hex_digit (c : ascii) : bool :=
  match hex_digit_value c with
  | Some _ => true
  | None => false
  end.

Fixpoint all_chars (p : ascii -> bool) (s : string) : bool :=
  match s with
  | EmptyString => true
  | String c s' => p c && all_chars p s'
  end.

(** The colour strings the specification admits: after the leading [#],
    exactly six hexadecimal digits. *)
Definition exactly_six_hex_digits (s : string) : bool :=
  (String.length s =? 6)%nat && all_chars is_hex_digit s.

(** A character that no part of a two-character hexadecimal field can
    hold. *)
Definition outside_hex_field (c : ascii) : bool :=
  negb (is_hex_digit c) && negb (is_sign c) && negb (is_int_space c).


(** Where the thumbnails were pasted, in drawing order. *)
Fixpoint pastes (l : list draw_op) : list (string * (Z * Z)) :=
  match l with
  | [] => []
  | Paste t xy :: l' => (source t, xy) :: pastes l'
  | _ :: l' => pastes l'
  end.

(** The texts drawn with the 24-point font, in drawing order. *)
Fixpoint headings (l : list draw_op) : list string :=
  match l with
  | [] => []
  | DrawText _ text _ 24 :: l' => text :: headings l'
  | _ :: l' => headings l'
  end.

(** The placement the specification gives to the item of 0-based index
    [i] of a Section whose first row starts at [section_top]. *)
Definition cell (images_per_row section_top i : Z) : Z * Z :=
  (grid_spacing + (i mod images_per_row) * (thumbnail_size + grid_spacing),
   section_top + (i / images_per_row) * (thumbnail_size + text_height + grid_spacing)).

(** The items of a Section from index [i] on, each at its [cell]. *)
Fixpoint placed (images_per_row section_top i : Z) (items : list image_item)
  : list (string * (Z * Z)) :=
  match items with
  | [] => []
  | (root, image_file) :: items' =>
      (join root image_file, cell images_per_row section_top i)
      :: placed images_per_row section_top (i + 1) items'
  end.

(** Two states of the item loop that agree on the running index and on
    the canvas. *)
Definition same_canvas (p q : painter) : Prop :=
  image_idx p = image_idx q /\ ops p = ops q.

(** Pre-order enumeration of the directories below [top], each with its
    path and listing: a directory first, then the enumeration of each of
    its sub-directories in listing order. *)
Fixpoint preorder (top : string) (d : fs_node) {struct d}
  : list (string * list fs_node) :=
  match d with
  | File _ _ => []
  | Dir _ _ entries =>
      (top, entries) ::
      flat_map (fun e =>
                  match e with
                  | Dir name false _ => preorder (join top name) e
                  | _ => []
                  end) entries
  end.

(** What [os.walk] yields for a visited directory. *)
Definition triple_of (visited : string * list fs_node)
  : string * list string * list string :=
  (fst visited, dirnames (snd visited), filenames (snd visited)).

(** The eligible files of one directory, as a Section. *)
Definition section_of (visited : string * list fs_node) : list image_item :=
  let '(root, entries) := visited in
  map (pair root) (filter eligible (filenames entries)).

Definition non_empty {A : Type} (l : list A) : bool :=
  match l with
  | [] => false
  | _ :: _ => true
  end.

(** Recursive discovery as the specification words it: one Section per
    visited directory with at least one eligible file, in pre-order. *)
Definition sections_in_preorder (folder_path : string)
  (entries : list fs_node) : list (list image_item) :=
  filter non_empty
         (map section_of (preorder folder_path (Dir folder_path false entries))).

(** The lines of a wrapped text put back together. *)
Fixpoint join_lines (lines : list string) : string :=
  match lines with
  | [] => EmptyString
  | line :: lines' => (line ++ join_lines lines')%string
  end.

(** A line that the wrapping may emit: one that measures at most
    [max_width], or one of at most one character, which is never
    measured on its own. *)
Definition line_fits (getbbox : string -> Z * Z * Z * Z) (max_width : Z)
  (line : string) : Prop :=
  (String.length line <= 1)%nat \/ bbox_width (getbbox line) <= max_width.

(** The path the item loop opens for an item, and whether it yields a
    thumbnail. *)
Definition item_path (item : image_item) : string :=
  join (fst item) (snd item).

Definition loads (w : world) (txt_color : rgb) (image_path : string) : bool :=
  match load_thumbnail w txt_color image_path with
  | Ok _ => true
  | Raise _ => false
  end.

(** The title of a group, as line 141 builds it. *)
Definition section_title (w : world) (folder_path : string)
  (subfolder_images : list image_item) : string :=
  let subfolder_path := fst (hd (EmptyString, EmptyString) subfolder_images) in
  let subfolder_name :=
    if (subfolder_path =? folder_path)%string then basename folder_path
    else relpath w subfolder_path folder_path in
  ("- " ++ subfolder_name ++ " ("
   ++ str_of_int (len subfolder_images) ++ " images)")%string.

(** A paste whose cell, thumbnail and caption band with the spacing
    below, lies inside the side margins and between [top] and [bottom]. *)
Definition cell_inside (canvas_width top bottom : Z)
  (paste : string * (Z * Z)) : Prop :=
  let '(x, y) := snd paste in
  grid_spacing <= x /\ x + thumbnail_size <= canvas_width - grid_spacing /\
  top <= y /\ y + (thumbnail_size + text_height + grid_spacing) <= bottom.

(** The vertical extent of a group in grouped mode: its title band when
    it has items, and its rows. *)
Definition section_extent (images_per_row : Z)
  (subfolder_images : list image_item) : Z :=
  (match subfolder_images with
   | [] => 0
   | _ :: _ => subfolder_title_height + grid_spacing
   end)
  + (len subfolder_images + images_per_row - 1) / images_per_row
    * (thumbnail_size + text_height + grid_spacing).

(** A colour written as [#RRGGBB], in upper or lower case. *)
Definition hex_digit_char (upper : bool) (d : Z) : ascii :=
  ascii_of_N (Z.to_N (if d <? 10 then 48 + d
                      else if upper then 55 + d else 87 + d)).

Definition format_rgb (upper : bool) (color : rgb) : string :=
  let '(r, g, b) := color in
  String "#"
    (String (hex_digit_char upper (r / 16))
       (String (hex_digit_char upper (r mod 16))
          (String (hex_digit_char upper (g / 16))
             (String (hex_digit_char upper (g mod 16))
                (String (hex_digit_char upper (b / 16))
                   (String (hex_digit_char upper (b mod 16)) EmptyString)))))).

(** The side lengths 1..256, and the check that scaling a shorter side
    [a] against a longer side [b] gives the exact quotient [a * 256 / b]
    rounded down, or one less where the quotient is a whole number, and a
    result between 1 and 256. *)
Definition small_sides : list Z := map Z.of_nat (seq 1 256).

Definition scale_checked (a b : Z) : bool :=
  match scale_dim a b with
  | Ok n =>
      (1 <=? n) && (n <=? 256) &&
      ((n =? a * 256 / b) ||
       ((a * 256 mod b =? 0) && (n =? a * 256 / b - 1)))
  | Raise _ => false
  end.

(** The [m] consecutive values of the running index from [k] on. *)
Definition window (k : Z) (m : nat) : list Z :=
  map (fun j => k + Z.of_nat j) (seq 0 m).

(** What the item loop prints for a path: nothing when the thumbnail is
    made, the message of line 205 otherwise. *)
Definition report (w : world) (txt_color : rgb) (image_path : string) : string :=
  match load_thumbnail w txt_color image_path with
  | Ok _ => EmptyString
  | Raise e =>
      ("Error loading image '" ++ image_path ++ "': " ++ exn_text e)%string
  end.

(** Lines broken greedily: wherever a line is followed by another, the
    line extended by the first character of the next one measures more
    than [max_width]. *)
Fixpoint greedy_breaks (getbbox : string -> Z * Z * Z * Z) (max_width : Z)
  (lines : list string) : Prop :=
  match lines with
  | line :: (next :: _) as rest =>
      match next with
      | String c _ =>
          max_width < bbox_width (getbbox (line ++ String c EmptyString)%string)
      | EmptyString => True
      end /\ greedy_breaks getbbox max_width rest
  | _ => True
  end.

(** A host that differs from [w] only in what its image files decode
    to. *)
Definition with_images (w : world) (images : string -> result (Z * Z))
  : world :=
  {| fs := fs w; module_dir := module_dir w; font_exists := font_exists w;
     font_error := font_error w; open_image := images;
     getbbox := getbbox w; relpath := relpath w |}.

(** Two outcomes of the render that agree on whether a canvas is
    returned, on the error raised when none is, and on the size, the
    background and the 24-point texts of the canvas. *)
Definition same_outcome (run run' : result rendering) : Prop :=
  match run, run' with
  | Ok r, Ok r' =>
      width r = width r' /\ height r = height r' /\
      background r = background r' /\
      headings (drawn r) = headings (drawn r')
  | Raise e, Raise e' => e = e'
  | _, _ => False
  end.

(** *** Sample hosts *)

Definition sample_bbox (s : string) : Z * Z * Z * Z :=
  (0, 0, 10 * Z.of_nat (String.length s), 20).

(** A host whose folder [/r] holds three images and a sub-folder [s] with
    two more; every image decodes to 256x256. *)
Definition two_folder_host : world :=
  {| fs := fun path =>
       if (path =? "/r")%string then
         Some [File "a.png" true; File "b.png" true; File "c.png" true;
               Dir "s" false [File "d.png" true; File "e.png" true]]
       else None;
     module_dir := "/m";
     font_exists := true;
     font_error := None;
     open_image := fun _ => Ok (256, 256);
     getbbox := sample_bbox;
     relpath := fun path start =>
       if (path =? "/r/s")%string then "s" else path |}.

(** A host whose folder [/r] holds twelve images, all decodable. *)
Definition twelve_image_host : world :=
  {| fs := fun path =>
       if (path =? "/r")%string then
         Some (map (fun n => File (str_of_int n ++ ".png") true)
                   [0; 1; 2; 3; 4; 5; 6; 7; 8; 9; 10; 11])
       else None;
     module_dir := "/m";
     font_exists := true;
     font_error := None;
     open_image := fun _ => Ok (256, 256);
     getbbox := sample_bbox;
     relpath := fun path _ => path |}.

(** A host whose folder [/r] holds a 1x300 strip and a 512x256 image. *)
Definition strip_host : world :=
  {| fs := fun path =>
       if (path =? "/r")%string then
         Some [File "strip.png" true; File "wide.png" true]
       else None;
     module_dir := "/m";
     font_exists := true;
     font_error := None;
     open_image := fun path =>
       if (path =? "/r/strip.png")%string then Ok (1, 300) else Ok (512, 256);
     getbbox := sample_bbox;
     relpath := fun path _ => path |}.

(** A host whose folder [/r] holds one image and a sub-folder [s] with a
    file that does not decode followed by one that does. *)
Definition gap_host : world :=
  {| fs := fun path =>
       if (path =? "/r")%string then
         Some [File "a.png" true;
               Dir "s" false [File "bad.png" true; File "d.png" true]]
       else None;
     module_dir := "/m";
     font_exists := true;
     font_error := None;
     open_image := fun path =>
       if (path =? "/r/s/bad.png")%string
       then Raise (OtherError "cannot identify image file")
       else Ok (256, 256);
     getbbox := sample_bbox;
     relpath := fun path start =>
       if (path =? "/r/s")%string then "s" else path |}.

(** A host whose folder [/r] exists and is empty. *)
Definition empty_host : world :=
  {| fs := fun path => if (path =? "/r")%string then Some [] else None;
     module_dir := "/m";
     font_exists := true;
     font_error := None;
     open_image := fun _ => Raise (OtherError "cannot identify image file");
     getbbox := sample_bbox;
     relpath := fun path _ => path |}.

(** The empty folder on a host without the font file, and on one whose
    font file does not load. *)
Definition fontless_host : world :=
  {| fs := fs empty_host; module_dir := "/m"; font_exists := false;
     font_error := None; open_image := open_image empty_host;
     getbbox := sample_bbox; relpath := relpath empty_host |}.

Definition broken_font_host : world :=
  {| fs := fs empty_host; module_dir := "/m"; font_exists := true;
     font_error := Some "unknown file format";
     open_image := open_image empty_host;
     getbbox := sample_bbox; relpath := relpath empty_host |}.

Definition sample_time : datetime :=
  {| year := 2024; month := 3; day := 9; hour := 14; minute := 5; second := 7 |}.

(** * Properties *)

(** ** Characters and strings *)

Lemma in_all_ascii (c : ascii) : In c all_ascii.
Proof.
  unfold all_ascii.
  rewrite <- (ascii_nat_embedding c).
  apply in_map, in_seq.
  pose proof (nat_ascii_bounded c). lia.
Qed.

Lemma forallb_all_ascii (p : ascii -> bool) :
  forallb p all_ascii = true -> forall c, p c = true.
Proof.
  intros H c. rewrite forallb_forall in H. apply H, in_all_ascii.
Qed.

Lemma hex_digit_value_range (c : ascii) (d : Z) :
  hex_digit_value c = Some d -> 0 <= d <= 15.
Proof.
  unfold hex_digit_value; cbv zeta.
  repeat match goal with
         | |- (if ?b then _ else _) = _ -> _ =>
             let E := fresh "E" in
             destruct b eqn:E;
             [apply andb_prop in E; destruct E as [?%Z.leb_le ?%Z.leb_le];
              intros [= ?]; lia|]
         end.
  discriminate.
Qed.

(** ** ColorParser *)

Lemma int_base16_one_bad :
  forall c, outside_hex_field c = true ->
            int_base16 (String c EmptyString) = None.
Proof.
  assert (H : forallb (fun c =>
                implb (outside_hex_field c)
                      match int_base16 (String c EmptyString) with
                      | None => true
                      | Some _ => false
                      end) all_ascii = true) by (vm_compute; reflexivity).
  intros c Hc. pose proof (forallb_all_ascii _ H c) as Hb. cbv beta in Hb.
  rewrite Hc in Hb. simpl in Hb.
  destruct (int_base16 (String c EmptyString)); [discriminate|reflexivity].
Qed.

Lemma int_base16_two_bad :
  forall c1 c2, outside_hex_field c1 || outside_hex_field c2 = true ->
                int_base16 (String c1 (String c2 EmptyString)) = None.
Proof.
  assert (H : forallb (fun c1 => forallb (fun c2 =>
                implb (outside_hex_field c1 || outside_hex_field c2)
                      match int_base16 (String c1 (String c2 EmptyString)) with
                      | None => true
                      | Some _ => false
                      end) all_ascii) all_ascii = true)
    by (vm_compute; reflexivity).
  intros c1 c2 Hc.
  pose proof (forallb_all_ascii _ H c1) as H1. cbv beta in H1.
  pose proof (forallb_all_ascii _ H1 c2) as H2. cbv beta in H2.
  rewrite Hc in H2. simpl in H2.
  destruct (int_base16 _); [discriminate|reflexivity].
Qed.

Lemma int_base16_two_digits :
  forall c1 c2 d1 d2,
    hex_digit_value c1 = Some d1 -> hex_digit_value c2 = Some d2 ->
    int_base16 (String c1 (String c2 EmptyString)) = Some (16 * d1 + d2).
Proof.
  assert (H : forallb (fun c1 => forallb (fun c2 =>
                match hex_digit_value c1, hex_digit_value c2 with
                | Some d1, Some d2 =>
                    match int_base16 (String c1 (String c2 EmptyString)) with
                    | Some v => v =? 16 * d1 + d2
                    | None => false
                    end
                | _, _ => true
                end) all_ascii) all_ascii = true)
    by (vm_compute; reflexivity).
  intros c1 c2 d1 d2 E1 E2.
  pose proof (forallb_all_ascii _ H c1) as H1. cbv beta in H1.
  pose proof (forallb_all_ascii _ H1 c2) as H2. cbv beta in H2.
  rewrite E1, E2 in H2.
  destruct (int_base16 _); [|discriminate].
  apply Z.eqb_eq in H2. now subst.
Qed.

Lemma substring_nothing (s : string) : substring 0 0 s = EmptyString.
Proof. destruct s; reflexivity. Qed.

Lemma int_base16_empty : int_base16 EmptyString = None.
Proof. reflexivity. Qed.

(** The three fields of a colour, read from the stripped string. *)
Lemma hex_to_rgb_fields (color : string) :
  hex_to_rgb color =
  let h := lstrip is_hash color in
  match int_base16 (slice 0 2 h), int_base16 (slice 2 2 h),
        int_base16 (slice 4 2 h) with
  | Some r, Some g, Some b => Some (r, g, b)
  | _, _, _ => None
  end.
Proof.
  unfold hex_to_rgb; cbv zeta.
  destruct (int_base16 (slice 0 2 _)); [|reflexivity].
  destruct (int_base16 (slice 2 2 _)); [|reflexivity].
  destruct (int_base16 (slice 4 2 _)); reflexivity.
Qed.

Ltac fields_none :=
  rewrite ?substring_nothing;
  repeat match goal with
         | |- context [int_base16 EmptyString] => rewrite int_base16_empty
         | H : outside_hex_field ?c = true
           |- context [int_base16 (String ?c EmptyString)] =>
             rewrite (int_base16_one_bad c H)
         | H : outside_hex_field ?c = true
           |- context [int_base16 (String ?c (String ?c' EmptyString))] =>
             rewrite (int_base16_two_bad c c') by (rewrite H; reflexivity)
         | H : outside_hex_field ?c = true
           |- context [int_base16 (String ?c' (String ?c EmptyString))] =>
             rewrite (int_base16_two_bad c' c)
               by (rewrite H; apply orb_true_r)
         end;
  repeat match goal with
         | |- context [match int_base16 ?s with _ => _ end] =>
             destruct (int_base16 s)
         end;
  reflexivity.

Lemma short_color_rejected (color : string) :
  (String.length (lstrip is_hash color) < 5)%nat -> hex_to_rgb color = None.
Proof.
  rewrite hex_to_rgb_fields; cbv zeta.
  destruct (lstrip is_hash color) as [|c0 [|c1 [|c2 [|c3 [|c4 h]]]]];
    cbn [String.length slice substring]; intros Hlen;
    try (exfalso; lia); fields_none.
Qed.

Lemma stray_character_rejected (color : string) (i : nat) (c : ascii) :
  (i < 6)%nat -> get i (lstrip is_hash color) = Some c ->
  outside_hex_field c = true -> hex_to_rgb color = None.
Proof.
  intros Hi Hget Hc.
  rewrite hex_to_rgb_fields; cbv zeta.
  destruct (lstrip is_hash color) as [|c0 [|c1 [|c2 [|c3 [|c4 [|c5 h]]]]]];
    do 6 (destruct i as [|i]; [cbn in Hget; try discriminate;
                               try (injection Hget as ->);
                               cbn [slice substring]; fields_none|]);
    exfalso; lia.
Qed.

Lemma six_digits_accepted (color : string) (c0 c1 c2 c3 c4 c5 : ascii)
  (d0 d1 d2 d3 d4 d5 : Z) :
  lstrip is_hash color =
    String c0 (String c1 (String c2 (String c3 (String c4 (String c5 ""))))) ->
  hex_digit_value c0 = Some d0 -> hex_digit_value c1 = Some d1 ->
  hex_digit_value c2 = Some d2 -> hex_digit_value c3 = Some d3 ->
  hex_digit_value c4 = Some d4 -> hex_digit_value c5 = Some d5 ->
  hex_to_rgb color = Some (16 * d0 + d1, 16 * d2 + d3, 16 * d4 + d5).
Proof.
  intros Hh E0 E1 E2 E3 E4 E5.
  rewrite hex_to_rgb_fields, Hh; cbn [slice substring].
  rewrite ?substring_nothing.
  rewrite (int_base16_two_digits _ _ _ _ E0 E1),
          (int_base16_two_digits _ _ _ _ E2 E3),
          (int_base16_two_digits _ _ _ _ E4 E5).
  reflexivity.
Qed.

(** ** Fatal errors of the render *)

Lemma prefix_append (b c : string) : prefix b (b ++ c)%string = true.
Proof.
  induction b as [|a b IH]; simpl; [destruct c; reflexivity|].
  destruct (ascii_dec a a); [exact IH|congruence].
Qed.

Lemma contains_middle (a b c : string) :
  contains (a ++ b ++ c)%string b = true.
Proof.
  induction a as [|x a IH].
  - change (contains (b ++ c)%string b = true).
    pose proof (prefix_append b c) as H.
    destruct (b ++ c)%string; cbn [contains]; rewrite H; reflexivity.
  - change (contains (String x (a ++ b ++ c)%string) b = true).
    cbn [contains]. rewrite IH. apply orb_true_r.
Qed.

Lemma missing_root_raises (w : world) (now : datetime) (folder_path : string)
  (images_per_row : Z) (include_subfolders : bool)
  (background_color text_color : string) :
  fs w folder_path = None ->
  generate_preview w now folder_path images_per_row include_subfolders
                   background_color text_color =
  Raise (ValueError ("The folder path '" ++ folder_path
                     ++ "' does not exist or is not a directory!")%string).
Proof.
  intros H. unfold generate_preview. rewrite H. reflexivity.
Qed.

Lemma rejected_color_raises (w : world) (now : datetime) (folder_path : string)
  (images_per_row : Z) (include_subfolders : bool)
  (background_color text_color : string) :
  fs w folder_path <> None -> font_exists w = true ->
  hex_to_rgb background_color = None \/ hex_to_rgb text_color = None ->
  generate_preview w now folder_path images_per_row include_subfolders
                   background_color text_color =
  Raise (ValueError invalid_color_message).
Proof.
  intros Hfs Hfont Hcol. unfold generate_preview.
  destruct (fs w folder_path) as [entries|]; [|congruence].
  rewrite Hfont; cbn [negb].
  destruct Hcol as [-> | ->]; [reflexivity|].
  destruct (hex_to_rgb background_color); reflexivity.
Qed.

(** C2, evaluated where it fails: the colour [#12345], whose remainder
    after the [#] has five hexadecimal digits.  The slices of lines 41-42
    are [12], [34] and [5], each of which [int(.., 16)] converts, so no
    [ValueError] reaches the handler of line 43: the colour parses to
    (18, 52, 5) and the render returns a canvas with that background,
    where the claim has it fail.  A seventh digit is ignored in the same
    way.  The claim's other cases hold: [GGGGGG] is rejected and aborts
    the render, [#FFFFFF] parses to (255,255,255) and [#000000] to
    (0,0,0). *)
Theorem five_digit_color_slips_through :
  exactly_six_hex_digits (lstrip is_hash "#12345") = false /\
  hex_to_rgb "#12345" = Some (18, 52, 5) /\
  (exists r,
     generate_preview empty_host sample_time "/r" 5 false "#12345" "#000000"
       = Ok r /\
     background r = (18, 52, 5)) /\
  exactly_six_hex_digits (lstrip is_hash "#1234567") = false /\
  hex_to_rgb "#1234567" = Some (18, 52, 86) /\
  hex_to_rgb "GGGGGG" = None /\
  generate_preview empty_host sample_time "/r" 5 false "GGGGGG" "#000000" =
    Raise (ValueError invalid_color_message) /\
  hex_to_rgb "#FFFFFF" = Some (255, 255, 255) /\
  hex_to_rgb "#000000" = Some (0, 0, 0).
Proof.
  split; [reflexivity|]. split; [reflexivity|].
  split; [eexists; split; vm_compute; reflexivity|].
  repeat split; reflexivity.
Qed.

(** C8, the claim as stated fails: the message raised for a rejected
    colour is a fixed text that does not include the offending value, and
    a colour of five hexadecimal digits does not fail the render at all. *)
Lemma color_error_omits_value :
  generate_preview empty_host sample_time "/r" 5 false "GGGGGG" "#000000" =
    Raise (ValueError invalid_color_message) /\
  contains invalid_color_message "GGGGGG" = false /\
  exactly_six_hex_digits (lstrip is_hash "12345") = false /\
  exists r,
    generate_preview empty_host sample_time "/r" 5 false "12345" "#000000" = Ok r.
Proof.
  split; [reflexivity|]. split; [reflexivity|]. split; [reflexivity|].
  eexists. vm_compute. reflexivity.
Qed.

(** C8, as amended: when the root path is not an existing directory the
    render raises an error whose message includes the offending path; when
    the root exists, the font file is present and the colour parser
    rejects one of the two colour strings, it raises the invalid-colour
    error, whose message is a fixed text; in both cases the render ends in
    the error and returns no rendering. *)
Theorem fatal_errors_abort (w : world) (now : datetime) (folder_path : string)
  (images_per_row : Z) (include_subfolders : bool)
  (background_color text_color : string) :
  let run := generate_preview w now folder_path images_per_row
                              include_subfolders background_color text_color in
  (fs w folder_path = None ->
   exists msg,
     run = Raise (ValueError msg) /\
     msg = ("The folder path '" ++ folder_path
            ++ "' does not exist or is not a directory!")%string /\
     contains msg folder_path = true /\
     forall r, run <> Ok r) /\
  (fs w folder_path <> None -> font_exists w = true ->
   hex_to_rgb background_color = None \/ hex_to_rgb text_color = None ->
   run = Raise (ValueError invalid_color_message) /\
   forall r, run <> Ok r).
Proof.
  intros run; subst run; split.
  - intros H. eexists. rewrite (missing_root_raises _ _ _ _ _ _ _ H).
    split; [reflexivity|]. split; [reflexivity|].
    split; [apply contains_middle|discriminate].
  - intros Hfs Hfont Hcol.
    rewrite (rejected_color_raises _ _ _ _ _ _ _ Hfs Hfont Hcol).
    split; [reflexivity|discriminate].
Qed.

Lemma fatal_errors_abort_witness :
  (exists msg,
     generate_preview empty_host sample_time "/nowhere" 5 false "#FFFFFF" "#000000"
       = Raise (ValueError msg) /\
     contains msg "/nowhere" = true) /\
  generate_preview empty_host sample_time "/r" 5 false "#FFFFFF" "#00"
    = Raise (ValueError invalid_color_message).
Proof.
  split.
  - destruct (proj1 (fatal_errors_abort empty_host sample_time "/nowhere" 5 false
                                        "#FFFFFF" "#000000") eq_refl)
      as (msg & Hrun & _ & Hin & _).
    exists msg. split; assumption.
  - apply (proj2 (fatal_errors_abort empty_host sample_time "/r" 5 false
                                     "#FFFFFF" "#00")).
    + simpl. discriminate.
    + reflexivity.
    + right. reflexivity.
Defined.

(** ** Sums and sizes *)

Lemma fold_add_from (l : list Z) (a : Z) :
  fold_left Z.add l a = a + fold_left Z.add l 0.
Proof.
  revert a; induction l as [|x l IH]; intros a; simpl; [lia|].
  rewrite (IH (a + x)), (IH x). lia.
Qed.

Lemma sum_cons (x : Z) (l : list Z) : sum (x :: l) = x + sum l.
Proof. unfold sum; simpl. apply fold_add_from. Qed.

Lemma sum_nonneg (l : list Z) : Forall (fun x => 0 <= x) l -> 0 <= sum l.
Proof.
  induction 1 as [|x l Hx _ IH]; [unfold sum; simpl; lia|].
  rewrite sum_cons. lia.
Qed.

Lemma len_nonneg {A : Type} (l : list A) : 0 <= len l.
Proof. unfold len. lia. Qed.

Lemma len_app {A : Type} (l1 l2 : list A) : len (l1 ++ l2) = len l1 + len l2.
Proof. unfold len. rewrite List.length_app. lia. Qed.

Lemma total_images_nonneg (image_files : list (list image_item)) :
  0 <= total_images image_files.
Proof.
  apply sum_nonneg, Forall_forall. intros x Hx.
  apply in_map_iff in Hx as (l & <- & _). apply len_nonneg.
Qed.

Lemma total_images_concat (image_files : list (list image_item)) :
  total_images image_files = len (List.concat image_files).
Proof.
  unfold total_images.
  induction image_files as [|s l IH]; [reflexivity|].
  cbn [map List.concat]. rewrite sum_cons, len_app, IH. reflexivity.
Qed.

Lemma output_width_pos (images_per_row : Z) :
  1 <= images_per_row -> 0 < output_width images_per_row.
Proof. unfold output_width, thumbnail_size, grid_spacing. lia. Qed.

Lemma output_height_pos (image_files : list (list image_item))
  (images_per_row : Z) (include_subfolders : bool) :
  1 <= images_per_row ->
  0 < output_height image_files images_per_row include_subfolders.
Proof.
  intros Hipr. unfold output_height.
  pose proof (total_images_nonneg image_files) as Ht.
  pose proof (len_nonneg image_files) as Hl.
  unfold grid_spacing, stats_height, line_thickness, footer_height,
    subfolder_title_height, thumbnail_size, text_height.
  destruct (total_images image_files =? 0); [lia|].
  destruct include_subfolders.
  - assert (0 <= sum (map (fun subfolder : list image_item =>
                             (len subfolder + images_per_row - 1) / images_per_row)
                          image_files)) as Hrows.
    { apply sum_nonneg, Forall_forall. intros x Hx.
      apply in_map_iff in Hx as (l & <- & _).
      pose proof (len_nonneg l). apply Z.div_pos; lia. }
    nia.
  - assert (0 <= (total_images image_files + images_per_row - 1) / images_per_row)
      by (apply Z.div_pos; lia).
    nia.
Qed.

(** ** The canvas only grows *)

Lemma draw_item_extends (w : world) (folder_path : string) (images_per_row : Z)
  (include_subfolders : bool) (txt_color : rgb) (section_len current_y : Z)
  (st : painter) (item : image_item) :
  exists more,
    ops (draw_item w folder_path images_per_row include_subfolders txt_color
                   section_len current_y st item) = (ops st ++ more)%list.
Proof.
  unfold draw_item. destruct item as [root image_file].
  destruct (load_thumbnail _ _ _); cbn [ops].
  - eexists; reflexivity.
  - exists []. now rewrite app_nil_r.
Qed.

Lemma draw_items_extend (w : world) (folder_path : string) (images_per_row : Z)
  (include_subfolders : bool) (txt_color : rgb) (section_len current_y : Z)
  (items : list image_item) (st : painter) :
  exists more,
    ops (fold_left (draw_item w folder_path images_per_row include_subfolders
                              txt_color section_len current_y) items st)
    = (ops st ++ more)%list.
Proof.
  revert st; induction items as [|item items IH]; intros st; cbn [fold_left].
  - exists []. now rewrite app_nil_r.
  - destruct (IH (draw_item w folder_path images_per_row include_subfolders
                            txt_color section_len current_y st item)) as [m2 H2].
    destruct (draw_item_extends w folder_path images_per_row include_subfolders
                                txt_color section_len current_y st item) as [m1 H1].
    exists (m1 ++ m2)%list. rewrite H2, H1, app_assoc. reflexivity.
Qed.

Lemma draw_section_extends (w : world) (folder_path : string)
  (images_per_row : Z) (include_subfolders : bool) (txt_color : rgb)
  (current_y : Z) (p : painter) (subfolder_images : list image_item) :
  exists more,
    ops (snd (draw_section w folder_path images_per_row include_subfolders
                           txt_color (current_y, p) subfolder_images))
    = (ops p ++ more)%list.
Proof.
  unfold draw_section.
  destruct subfolder_images as [|[subfolder_path fname] rest].
  - destruct include_subfolders; cbn; exists []; now rewrite app_nil_r.
  - destruct include_subfolders; cbv beta iota zeta; cbn [snd];
      match goal with
      | |- context [fold_left (draw_item ?w ?fp ?ipr ?sub ?txt ?n ?cy) ?l ?st] =>
          destruct (draw_items_extend w fp ipr sub txt n cy l st) as [m H];
          rewrite H
      end; cbn [ops].
    + eexists. rewrite <- app_assoc. reflexivity.
    + eexists; reflexivity.
Qed.

Lemma draw_sections_extend (w : world) (folder_path : string)
  (images_per_row : Z) (include_subfolders : bool) (txt_color : rgb)
  (image_files : list (list image_item)) (st : Z * painter) :
  exists more,
    ops (snd (fold_left (draw_section w folder_path images_per_row
                                      include_subfolders txt_color)
                        image_files st))
    = (ops (snd st) ++ more)%list.
Proof.
  revert st; induction image_files as [|s l IH]; intros st; cbn [fold_left].
  - exists []. now rewrite app_nil_r.
  - destruct (IH (draw_section w folder_path images_per_row include_subfolders
                               txt_color st s)) as [m2 H2].
    destruct st as [cy p].
    destruct (draw_section_extends w folder_path images_per_row
                include_subfolders txt_color cy p s) as [m1 H1].
    exists (m1 ++ m2)%list. rewrite H2, H1, app_assoc. reflexivity.
Qed.

(** ** A successful render *)

Lemma generate_preview_succeeds (w : world) (now : datetime)
  (folder_path : string) (images_per_row : Z) (include_subfolders : bool)
  (background_color text_color : string) (entries : list fs_node)
  (bg_color txt_color : rgb) :
  fs w folder_path = Some entries -> font_exists w = true ->
  font_error w = None ->
  hex_to_rgb background_color = Some bg_color ->
  hex_to_rgb text_color = Some txt_color ->
  1 <= images_per_row ->
  let image_files := discover include_subfolders folder_path entries in
  let out_height := output_height image_files images_per_row include_subfolders in
  exists middle printed_lines,
    generate_preview w now folder_path images_per_row include_subfolders
                     background_color text_color =
    Ok {| width := output_width images_per_row;
          height := out_height;
          background := bg_color;
          drawn :=
            (DrawText (grid_spacing, grid_spacing)
                      (stats_text (total_images image_files)) txt_color 24
             :: divider images_per_row (grid_spacing + stats_height + grid_spacing)
                        txt_color
             :: middle
             ++ footer images_per_row out_height txt_color
                       (strftime_created_on now))%list;
          log := printed_lines |} /\
    (total_images image_files = 0 -> middle = [] /\ printed_lines = []).
Proof.
  intros Hfs Hfont Hload Hbg Htxt Hipr image_files out_height.
  unfold generate_preview.
  rewrite Hfs, Hfont, Hbg, Htxt, Hload; cbn [negb].
  fold image_files. fold out_height.
  replace (images_per_row =? 0) with false by (symmetry; apply Z.eqb_neq; lia).
  rewrite andb_false_r.
  pose proof (output_width_pos images_per_row Hipr) as Hw.
  pose proof (output_height_pos image_files images_per_row include_subfolders Hipr) as Hh.
  fold out_height in Hh.
  replace (output_width images_per_row <? 0) with false
    by (symmetry; apply Z.ltb_ge; lia).
  replace (out_height <? 0) with false by (symmetry; apply Z.ltb_ge; lia).
  cbn [orb].
  destruct (total_images image_files =? 0) eqn:Etotal.
  - exists [], []. split; [reflexivity|]. intros _; split; reflexivity.
  - match goal with
    | |- context [fold_left ?f ?l ?st] =>
        destruct (draw_sections_extend w folder_path images_per_row
                    include_subfolders txt_color l st) as [m H];
        destruct (fold_left f l st) as [cy p]
    end.
    cbn [snd ops] in H. exists m, (printed p). split.
    + rewrite H. reflexivity.
    + apply Z.eqb_neq in Etotal. intros E; contradiction.
Qed.

(** ** Zero items and the stats line *)

Lemma flat_listing_without_images (folder_path : string) (entries : list fs_node) :
  (forall n, In n entries -> is_regular n && eligible (node_name n) = false) ->
  total_images (discover false folder_path entries) = 0.
Proof.
  intros H. cbn [discover]. unfold discover_flat.
  replace (filter _ entries) with (@nil fs_node); [reflexivity|].
  symmetry. induction entries as [|n l IH]; [reflexivity|].
  cbn [filter]. rewrite (H n (or_introl eq_refl)).
  apply IH. intros m Hm. apply H. now right.
Qed.

(** C5: when the discovered total is 0 the render succeeds with a canvas
    324 pixels high, that is the stats line, two dividers and the footer,
    each one grid-spacing unit apart, and nothing in between; the stats
    text reads "Not found any image".  An existing folder without eligible
    regular files is such a case. *)
Theorem zero_items_layout (w : world) (now : datetime) (folder_path : string)
  (images_per_row : Z) (include_subfolders : bool)
  (background_color text_color : string) (entries : list fs_node)
  (bg_color txt_color : rgb) :
  fs w folder_path = Some entries -> font_exists w = true ->
  font_error w = None ->
  hex_to_rgb background_color = Some bg_color ->
  hex_to_rgb text_color = Some txt_color ->
  1 <= images_per_row ->
  total_images (discover include_subfolders folder_path entries) = 0 ->
  generate_preview w now folder_path images_per_row include_subfolders
                   background_color text_color =
  Ok {| width := output_width images_per_row;
        height := 324;
        background := bg_color;
        drawn :=
          [DrawText (48, 48) "Not found any image" txt_color 24;
           DrawRectangle (48, 136) (output_width images_per_row - 48, 138) txt_color;
           DrawRectangle (48, 186) (output_width images_per_row - 48, 188) txt_color;
           DrawText (48, 236) (strftime_created_on now) txt_color 24];
        log := [] |} /\
  324 = grid_spacing + stats_height + grid_spacing + line_thickness
        + grid_spacing + line_thickness + grid_spacing + footer_height
        + grid_spacing /\
  (include_subfolders = false ->
   (forall n, In n entries -> is_regular n && eligible (node_name n) = false) ->
   total_images (discover include_subfolders folder_path entries) = 0).
Proof.
  intros Hfs Hfont Hload Hbg Htxt Hipr Hzero.
  split; [|split; [reflexivity|]].
  - destruct (generate_preview_succeeds w now folder_path images_per_row
                include_subfolders background_color text_color entries
                bg_color txt_color Hfs Hfont Hload Hbg Htxt Hipr)
      as (middle & lines & Hrun & Hnone).
    destruct (Hnone Hzero) as [-> ->].
    rewrite Hrun. unfold output_height. rewrite Hzero. reflexivity.
  - intros -> Hnone. now apply flat_listing_without_images.
Qed.

Lemma zero_items_layout_witness :
  generate_preview empty_host sample_time "/r" 5 false "#FFFFFF" "#000000" =
  Ok {| width := 1568;
        height := 324;
        background := (255, 255, 255);
        drawn :=
          [DrawText (48, 48) "Not found any image" (0, 0, 0) 24;
           DrawRectangle (48, 136) (1520, 138) (0, 0, 0);
           DrawRectangle (48, 186) (1520, 188) (0, 0, 0);
           DrawText (48, 236) "Created on 2024-03-09 14:05:07" (0, 0, 0) 24];
        log := [] |} /\
  total_images (discover false "/r" []) = 0.
Proof.
  pose proof (zero_items_layout empty_host sample_time "/r" 5 false
                "#FFFFFF" "#000000" [] (255, 255, 255) (0, 0, 0)
                eq_refl eq_refl eq_refl eq_refl eq_refl
                ltac:(lia) eq_refl) as (Hrun & _ & Hflat).
  split; [exact Hrun|].
  apply Hflat; [reflexivity|]. intros n [].
Defined.

Lemma str_of_int_decimal (n : Z) : int_of_decimal (str_of_int n) = Some n.
Proof.
  unfold int_of_decimal, str_of_int.
  rewrite NilZero.isi.
  - cbn [option_map]. now rewrite DecimalZ.of_to.
  - destruct n; cbn; try discriminate.
    intros [= H]. now apply (DecimalPos.Unsigned.to_uint_nonnil p).
  - destruct n; cbn; try discriminate.
    intros [= H]. now apply (DecimalPos.Unsigned.to_uint_nonnil p).
Qed.

(** C6: the stats header is a function of the discovered total N: for
    N = 1 it is "Found 1 image", for every N >= 2 it is "Found N images"
    with N in decimal; and it is the first text a successful render
    draws. *)
Theorem stats_text_of_total :
  stats_text 1 = "Found 1 image" /\
  (forall n, 2 <= n ->
     stats_text n = ("Found " ++ str_of_int n ++ " images")%string /\
     int_of_decimal (str_of_int n) = Some n) /\
  stats_text 2 = "Found 2 images" /\
  stats_text 12 = "Found 12 images" /\
  (forall w now folder_path images_per_row include_subfolders
          background_color text_color entries bg_color txt_color,
     fs w folder_path = Some entries -> font_exists w = true ->
     font_error w = None ->
     hex_to_rgb background_color = Some bg_color ->
     hex_to_rgb text_color = Some txt_color ->
     1 <= images_per_row ->
     exists r rest,
       generate_preview w now folder_path images_per_row include_subfolders
                        background_color text_color = Ok r /\
       drawn r =
         DrawText (grid_spacing, grid_spacing)
                  (stats_text (total_images
                                 (discover include_subfolders folder_path entries)))
                  txt_color 24 :: rest).
Proof.
  split; [reflexivity|]. split; [|split; [reflexivity|split; [reflexivity|]]].
  - intros n Hn. split; [|apply str_of_int_decimal].
    unfold stats_text.
    replace (n =? 0) with false by (symmetry; apply Z.eqb_neq; lia).
    replace (n =? 1) with false by (symmetry; apply Z.eqb_neq; lia).
    reflexivity.
  - intros w now folder_path images_per_row include_subfolders
           background_color text_color entries bg_color txt_color
           Hfs Hfont Hload Hbg Htxt Hipr.
    destruct (generate_preview_succeeds w now folder_path images_per_row
                include_subfolders background_color text_color entries
                bg_color txt_color Hfs Hfont Hload Hbg Htxt Hipr)
      as (middle & lines & Hrun & _).
    eexists; eexists. split; [exact Hrun|]. reflexivity.
Qed.

Lemma stats_text_of_total_witness :
  stats_text 37 = "Found 37 images" /\
  exists r rest,
    generate_preview twelve_image_host sample_time "/r" 5 false
                     "#FFFFFF" "#000000" = Ok r /\
    drawn r = DrawText (48, 48) "Found 12 images" (0, 0, 0) 24 :: rest.
Proof.
  split.
  - apply (proj1 (proj1 (proj2 stats_text_of_total) 37 ltac:(lia))).
  - apply (proj2 (proj2 (proj2 (proj2 stats_text_of_total)))
             twelve_image_host sample_time "/r" 5 false "#FFFFFF" "#000000"
             _ (255, 255, 255) (0, 0, 0)
             eq_refl eq_refl eq_refl eq_refl eq_refl ltac:(lia)).
Defined.

(** ** ImageDiscovery *)

Lemma walk_dir_preorder (d : fs_node) :
  forall top, walk_dir top d = map triple_of (preorder top d).
Proof.
  induction d as [name regular|name symlink children IH] using fs_node_tree_ind;
    intros top; [reflexivity|].
  cbn [walk_dir preorder map]. unfold triple_of at 1; cbn [fst snd].
  f_equal.
  induction IH as [|e l He _ IHl]; [reflexivity|].
  cbn [flat_map]. rewrite map_app, <- IHl. f_equal.
  destruct e as [|n [|] cs]; try reflexivity.
  apply He.
Qed.

Lemma collect_step_fold (triples : list (string * list string * list string))
  (image_files : list (list image_item)) :
  fold_left collect_step triples image_files =
  (image_files ++
   filter non_empty
          (map (fun t => map (pair (fst (fst t))) (filter eligible (snd t)))
               triples))%list.
Proof.
  revert image_files; induction triples as [|[[root dirs] files] l IH];
    intros image_files; cbn [fold_left map filter].
  - now rewrite app_nil_r.
  - rewrite IH. unfold collect_step. cbn [fst snd].
    destruct (map (pair root) (filter eligible files)); cbn [non_empty].
    + reflexivity.
    + rewrite <- app_assoc. reflexivity.
Qed.

Lemma discover_recursive_preorder (folder_path : string) (entries : list fs_node) :
  discover_recursive folder_path entries =
  sections_in_preorder folder_path entries.
Proof.
  unfold discover_recursive, sections_in_preorder, walk.
  rewrite collect_step_fold, walk_dir_preorder, map_map. cbn [app].
  apply f_equal. apply map_ext. intros [root es]. reflexivity.
Qed.

Lemma concat_non_empty {A : Type} (l : list (list A)) :
  List.concat (filter non_empty l) = List.concat l.
Proof.
  induction l as [|x l IH]; [reflexivity|].
  destruct x; cbn [filter non_empty List.concat app]; [exact IH|].
  now rewrite IH.
Qed.

Lemma non_empty_sections {A : Type} (l : list (list A)) :
  Forall (fun s => s <> []) (filter non_empty l).
Proof.
  apply Forall_forall. intros s Hs. apply filter_In in Hs as [_ Hs].
  destruct s; [discriminate|discriminate].
Qed.

Example preorder_visits_depth_first :
  map fst (preorder "/r"
             (Dir "/r" false
                  [Dir "a" false [Dir "x" false []; File "f.png" true];
                   File "g.png" true;
                   Dir "l" true [Dir "y" false []];
                   Dir "b" false []])) =
  ["/r"; "/r/a"; "/r/a/x"; "/r/b"].
Proof. reflexivity. Qed.

(** C7: in recursive mode discovery returns one Section per visited
    directory that holds at least one eligible file, in pre-order
    (a directory first, then its sub-directories depth-first); every
    Section is non-empty, and the total is the sum of the Section sizes,
    which is the number of eligible files of the visited directories. *)
Theorem recursive_discovery_in_preorder (folder_path : string)
  (entries : list fs_node) :
  let image_files := discover true folder_path entries in
  let visited := preorder folder_path (Dir folder_path false entries) in
  image_files = filter non_empty (map section_of visited) /\
  Forall (fun s => s <> []) image_files /\
  total_images image_files = sum (map len image_files) /\
  total_images image_files = len (List.concat image_files) /\
  total_images image_files = len (flat_map section_of visited).
Proof.
  cbv zeta. cbn [discover]. rewrite discover_recursive_preorder.
  unfold sections_in_preorder.
  split; [reflexivity|]. split; [apply non_empty_sections|].
  split; [reflexivity|]. split; [apply total_images_concat|].
  rewrite total_images_concat, concat_non_empty, flat_map_concat_map.
  reflexivity.
Qed.

Example recursive_discovery_two_folders :
  discover true "/r"
           [File "a.png" true; File "notes.txt" true;
            Dir "empty" false [File "readme.md" true];
            Dir "s" false [File "d.PNG" true; File "e.jpeg" true]] =
  [[("/r", "a.png")]; [("/r/s", "d.PNG"); ("/r/s", "e.jpeg")]].
Proof. reflexivity. Qed.

(** ** Determinism *)

(** C9: two runs on the same arguments and the same host (listing,
    decoded images, font) that read the clock at [t1] and [t2] either
    raise the same error or produce canvases of the same size and
    background whose drawing calls are the same up to the last one, the
    footer text, which carries the run's own timestamp. *)
Theorem deterministic_modulo_timestamp (w : world) (t1 t2 : datetime)
  (folder_path : string) (images_per_row : Z) (include_subfolders : bool)
  (background_color text_color : string) :
  match generate_preview w t1 folder_path images_per_row include_subfolders
                         background_color text_color,
        generate_preview w t2 folder_path images_per_row include_subfolders
                         background_color text_color with
  | Ok r1, Ok r2 =>
      width r1 = width r2 /\ height r1 = height r2 /\
      background r1 = background r2 /\ log r1 = log r2 /\
      exists body xy fill,
        drawn r1 = (body ++ [DrawText xy (strftime_created_on t1) fill 24])%list /\
        drawn r2 = (body ++ [DrawText xy (strftime_created_on t2) fill 24])%list
  | Raise e1, Raise e2 => e1 = e2
  | _, _ => False
  end.
Proof.
  unfold generate_preview.
  destruct (fs w folder_path) as [entries|]; [|reflexivity].
  destruct (font_exists w); cbn [negb]; [|reflexivity].
  destruct (hex_to_rgb background_color) as [bg_color|]; [|reflexivity].
  destruct (hex_to_rgb text_color) as [txt_color|]; [|reflexivity].
  destruct (negb _ && _); [reflexivity|].
  destruct (_ || _); [reflexivity|].
  destruct (font_error w); [reflexivity|].
  destruct (total_images _ =? 0).
  - cbn [width height background log drawn].
    repeat (split; [reflexivity|]).
    unfold footer. eexists (_ :: _ :: _ :: nil), _, _.
    split; reflexivity.
  - destruct (fold_left _ _ _) as [cy p].
    cbn [width height background log drawn].
    repeat (split; [reflexivity|]).
    unfold footer. eexists (ops p ++ [_])%list, _, _.
    rewrite <- !app_assoc. split; reflexivity.
Qed.

(** ** The item loop *)

Lemma pastes_app (l1 l2 : list draw_op) :
  pastes (l1 ++ l2) = (pastes l1 ++ pastes l2)%list.
Proof.
  induction l1 as [|[xy text fill size|xy0 xy1 fill|t xy] l1 IH]; cbn [app pastes];
    rewrite ?IH; reflexivity.
Qed.

Lemma pastes_draw_lines (lines : list string) (i x text_y : Z) (txt_color : rgb) :
  pastes (draw_lines i lines x text_y txt_color) = [].
Proof.
  revert i; induction lines as [|line lines IH]; intros i; cbn; auto.
Qed.

Lemma make_thumbnail_source (txt_color : rgb) (image_path : string)
  (size : Z * Z) (t : thumbnail) :
  make_thumbnail txt_color image_path size = Ok t -> source t = image_path.
Proof.
  unfold make_thumbnail. destruct size as [iw ih].
  destruct (scaled_size iw ih) as [[nw nh]|e]; [|discriminate].
  destruct (_ || _); [discriminate|].
  destruct (_ || _); intros [= <-]; reflexivity.
Qed.

Lemma load_thumbnail_source (w : world) (txt_color : rgb) (image_path : string)
  (t : thumbnail) :
  load_thumbnail w txt_color image_path = Ok t -> source t = image_path.
Proof.
  unfold load_thumbnail. destruct (open_image w image_path); [|discriminate].
  apply make_thumbnail_source.
Qed.

Lemma draw_item_skips (w : world) (folder_path : string) (images_per_row : Z)
  (include_subfolders : bool) (txt_color : rgb) (section_len current_y : Z)
  (st : painter) (root image_file : string) (e : exn) :
  load_thumbnail w txt_color (join root image_file) = Raise e ->
  draw_item w folder_path images_per_row include_subfolders txt_color
            section_len current_y st (root, image_file) =
  {| image_idx := image_idx st;
     ops := ops st;
     printed := (printed st ++
                 [("Error loading image '" ++ join root image_file ++ "': "
                   ++ exn_text e)%string])%list |}.
Proof. intros H. unfold draw_item. rewrite H. reflexivity. Qed.

Lemma draw_item_pastes (w : world) (folder_path : string) (images_per_row : Z)
  (include_subfolders : bool) (txt_color : rgb) (section_len current_y : Z)
  (st : painter) (root image_file : string) (t : thumbnail) :
  load_thumbnail w txt_color (join root image_file) = Ok t ->
  exists captions,
    pastes captions = [] /\
    draw_item w folder_path images_per_row include_subfolders txt_color
              section_len current_y st (root, image_file) =
    {| image_idx := image_idx st + 1;
       ops := (ops st ++
               Paste t (grid_position images_per_row section_len current_y
                                      (image_idx st)) :: captions)%list;
       printed := printed st |}.
Proof.
  intros H. unfold draw_item. rewrite H. unfold grid_position; cbv zeta.
  eexists. split; [|reflexivity]. apply pastes_draw_lines.
Qed.

Lemma draw_item_same_canvas (w : world) (folder_path : string)
  (images_per_row : Z) (include_subfolders : bool) (txt_color : rgb)
  (section_len current_y : Z) (p q : painter) (item : image_item) :
  same_canvas p q ->
  same_canvas
    (draw_item w folder_path images_per_row include_subfolders txt_color
               section_len current_y p item)
    (draw_item w folder_path images_per_row include_subfolders txt_color
               section_len current_y q item).
Proof.
  intros [Hidx Hops]. unfold draw_item. destruct item as [root image_file].
  destruct (load_thumbnail _ _ _); unfold same_canvas; cbn [image_idx ops].
  - rewrite Hidx, Hops.
    destruct (grid_position _ _ _ _) as [x y]. cbn [image_idx ops]. auto.
  - auto.
Qed.

Lemma draw_items_same_canvas (w : world) (folder_path : string)
  (images_per_row : Z) (include_subfolders : bool) (txt_color : rgb)
  (section_len current_y : Z) (items : list image_item) (p q : painter) :
  same_canvas p q ->
  same_canvas
    (fold_left (draw_item w folder_path images_per_row include_subfolders
                          txt_color section_len current_y) items p)
    (fold_left (draw_item w folder_path images_per_row include_subfolders
                          txt_color section_len current_y) items q).
Proof.
  revert p q; induction items as [|item items IH]; intros p q H; cbn [fold_left].
  - exact H.
  - apply IH, draw_item_same_canvas, H.
Qed.

(** Removing an item that fails to load from the list leaves the running
    index and the canvas as they are. *)
Lemma failed_item_is_transparent (w : world) (folder_path : string)
  (images_per_row : Z) (include_subfolders : bool) (txt_color : rgb)
  (section_len current_y : Z) (st : painter)
  (before after : list image_item) (root image_file : string) (e : exn) :
  load_thumbnail w txt_color (join root image_file) = Raise e ->
  same_canvas
    (fold_left (draw_item w folder_path images_per_row include_subfolders
                          txt_color section_len current_y)
               (before ++ (root, image_file) :: after) st)
    (fold_left (draw_item w folder_path images_per_row include_subfolders
                          txt_color section_len current_y)
               (before ++ after) st).
Proof.
  intros H. rewrite !fold_left_app. cbn [fold_left].
  apply draw_items_same_canvas.
  rewrite (draw_item_skips _ _ _ _ _ _ _ _ _ _ _ H).
  split; reflexivity.
Qed.

Lemma grid_position_cell (images_per_row section_len current_y i : Z) :
  0 <= i < section_len ->
  grid_position images_per_row section_len current_y i =
  cell images_per_row current_y i.
Proof.
  intros H. unfold grid_position, cell; cbv zeta.
  rewrite (Z.mod_small i section_len H). reflexivity.
Qed.

(** While the running index stays below the group's length and every item
    loads, the items land on consecutive cells. *)
Lemma loaded_items_fill_cells (w : world) (folder_path : string)
  (images_per_row : Z) (include_subfolders : bool) (txt_color : rgb)
  (section_len current_y : Z) (items : list image_item) (st : painter) :
  0 <= image_idx st -> image_idx st + len items <= section_len ->
  (forall root image_file, In (root, image_file) items ->
     exists t, load_thumbnail w txt_color (join root image_file) = Ok t) ->
  let st' := fold_left (draw_item w folder_path images_per_row
                                  include_subfolders txt_color
                                  section_len current_y) items st in
  pastes (ops st') =
    (pastes (ops st) ++ placed images_per_row current_y (image_idx st) items)%list /\
  image_idx st' = image_idx st + len items /\
  printed st' = printed st.
Proof.
  revert st; induction items as [|[root image_file] items IH];
    intros st Hidx Hlen Hload; cbn [fold_left placed].
  - rewrite app_nil_r. unfold len; cbn. repeat split; try reflexivity; lia.
  - destruct (Hload root image_file (or_introl eq_refl)) as [t Ht].
    destruct (draw_item_pastes w folder_path images_per_row include_subfolders
                txt_color section_len current_y st root image_file t Ht)
      as (captions & Hcap & Hstep).
    rewrite Hstep.
    assert (len ((root, image_file) :: items) = 1 + len items) as Hcons
      by (unfold len; cbn [List.length]; lia).
    pose proof (len_nonneg items) as Hn.
    match goal with
    | |- context [fold_left _ items ?s] => specialize (IH s)
    end.
    cbn [image_idx ops printed] in IH.
    destruct IH as (IHp & IHi & IHl);
      [lia|lia|intros r f Hin; apply Hload; now right|].
    cbv zeta. rewrite IHp, IHi, IHl.
    rewrite pastes_app. cbn [pastes]. rewrite Hcap.
    rewrite (load_thumbnail_source _ _ _ _ Ht).
    rewrite grid_position_cell by lia.
    rewrite <- app_assoc. cbn [app].
    repeat split; try reflexivity; lia.
Qed.

(** ** The grid of a render *)

Lemma generate_preview_runs (w : world) (now : datetime)
  (folder_path : string) (images_per_row : Z) (include_subfolders : bool)
  (background_color text_color : string) (entries : list fs_node)
  (bg_color txt_color : rgb) :
  fs w folder_path = Some entries -> font_exists w = true ->
  font_error w = None ->
  hex_to_rgb background_color = Some bg_color ->
  hex_to_rgb text_color = Some txt_color ->
  1 <= images_per_row ->
  let image_files := discover include_subfolders folder_path entries in
  let out_height := output_height image_files images_per_row include_subfolders in
  let header :=
    [DrawText (grid_spacing, grid_spacing)
              (stats_text (total_images image_files)) txt_color 24;
     divider images_per_row (grid_spacing + stats_height + grid_spacing)
             txt_color] in
  let p :=
    snd (fold_left
           (draw_section w folder_path images_per_row include_subfolders txt_color)
           image_files
           (grid_spacing + stats_height + grid_spacing + line_thickness
            + grid_spacing,
            {| image_idx := 0; ops := header; printed := [] |})) in
  generate_preview w now folder_path images_per_row include_subfolders
                   background_color text_color =
  Ok {| width := output_width images_per_row;
        height := out_height;
        background := bg_color;
        drawn :=
          ((if total_images image_files =? 0 then header else ops p)
           ++ footer images_per_row out_height txt_color
                     (strftime_created_on now))%list;
        log := if total_images image_files =? 0 then [] else printed p |}.
Proof.
  intros Hfs Hfont Hload Hbg Htxt Hipr image_files out_height header p.
  unfold generate_preview.
  rewrite Hfs, Hfont, Hbg, Htxt, Hload; cbn [negb].
  fold image_files. fold out_height.
  replace (images_per_row =? 0) with false by (symmetry; apply Z.eqb_neq; lia).
  rewrite andb_false_r.
  pose proof (output_width_pos images_per_row Hipr) as Hw.
  pose proof (output_height_pos image_files images_per_row include_subfolders Hipr) as Hh.
  fold out_height in Hh.
  replace (output_width images_per_row <? 0) with false
    by (symmetry; apply Z.ltb_ge; lia).
  replace (out_height <? 0) with false by (symmetry; apply Z.ltb_ge; lia).
  cbn [orb].
  destruct (total_images image_files =? 0); [reflexivity|].
  subst p. fold header.
  destruct (fold_left _ _ _) as [cy q]. reflexivity.
Qed.

Lemma draw_section_flat (w : world) (folder_path : string)
  (images_per_row : Z) (txt_color : rgb) (current_y : Z) (p : painter)
  (items : list image_item) :
  draw_section w folder_path images_per_row false txt_color (current_y, p) items =
  (current_y,
   fold_left (draw_item w folder_path images_per_row false txt_color
                        (len items) current_y) items p).
Proof. unfold draw_section. destruct items as [|[root f] rest]; reflexivity. Qed.

(** Without sub-folders, when every discovered file loads, the item of
    index [i] is pasted on the cell of row [i / images_per_row] and column
    [i mod images_per_row] below the top divider. *)
Lemma flat_items_fill_cells (w : world) (now : datetime)
  (folder_path : string) (images_per_row : Z)
  (background_color text_color : string) (entries : list fs_node)
  (bg_color txt_color : rgb) (items : list image_item) :
  fs w folder_path = Some entries -> font_exists w = true ->
  font_error w = None ->
  hex_to_rgb background_color = Some bg_color ->
  hex_to_rgb text_color = Some txt_color ->
  1 <= images_per_row ->
  discover false folder_path entries = [items] ->
  (forall root image_file, In (root, image_file) items ->
     exists t, load_thumbnail w txt_color (join root image_file) = Ok t) ->
  exists r,
    generate_preview w now folder_path images_per_row false
                     background_color text_color = Ok r /\
    pastes (drawn r) = placed images_per_row 186 0 items.
Proof.
  intros Hfs Hfont Hload Hbg Htxt Hipr Hitems Hall.
  eexists. split.
  - apply (generate_preview_runs w now folder_path images_per_row false
             background_color text_color entries bg_color txt_color);
      assumption.
  - cbn [drawn]. rewrite Hitems. rewrite pastes_app.
    replace (pastes (footer _ _ _ _)) with (@nil (string * (Z * Z)))
      by reflexivity.
    rewrite app_nil_r.
    destruct (total_images [items] =? 0) eqn:Etotal.
    + apply Z.eqb_eq in Etotal. unfold total_images in Etotal.
      cbn [map] in Etotal. rewrite sum_cons in Etotal.
      destruct items; [reflexivity|].
      unfold len, sum in Etotal. cbn in Etotal. lia.
    + cbn [fold_left]. rewrite draw_section_flat. cbn [snd].
      match goal with
      | |- context [fold_left ?f items ?st] =>
          pose proof (loaded_items_fill_cells w folder_path images_per_row
                        false txt_color (len items) 186 items st) as H
      end.
      cbn [image_idx ops] in H.
      destruct H as (Hp & _ & _); [lia|lia|exact Hall|].
      exact Hp.
Qed.

Example twelve_flat_images_item_five :
  exists r,
    generate_preview twelve_image_host sample_time "/r" 5 false
                     "#FFFFFF" "#000000" = Ok r /\
    height r = 48 + 40 + 48 + 2 + 48 + 3 * (256 + 60 + 48) + 48 + 2 + 40 + 48 /\
    nth_error (pastes (drawn r)) 5 = Some ("/r/5.png", cell 5 186 5) /\
    cell 5 186 5 = (48 + 0 * (256 + 48), 186 + 1 * (256 + 60 + 48)).
Proof. eexists. repeat split; vm_compute; reflexivity. Qed.

(** C1, evaluated where it fails: with sub-folders, a folder of three
    images and a sub-folder of two, five per row.  The running index is 3
    when the second group starts and is taken modulo the group's length 2,
    so the group's first item is pasted on column 1 and its second item on
    column 0, where the claim has them on columns 0 and 1. *)
Theorem second_section_is_rotated :
  exists r,
    generate_preview two_folder_host sample_time "/r" 5 true
                     "#FFFFFF" "#000000" = Ok r /\
    pastes (drawn r) =
      [("/r/a.png", cell 5 274 0); ("/r/b.png", cell 5 274 1);
       ("/r/c.png", cell 5 274 2);
       ("/r/s/d.png", cell 5 726 1); ("/r/s/e.png", cell 5 726 0)] /\
    grid_position 5 2 726 3 = cell 5 726 1 /\
    cell 5 726 1 = (352, 726) /\ cell 5 726 0 = (48, 726).
Proof. eexists. repeat split; vm_compute; reflexivity. Qed.

(** C10, evaluated where it fails: with sub-folders, a folder of one
    image and a sub-folder whose first file does not decode and whose
    second does, five per row.  The failing file is skipped with the
    running index left at 1, and the index is taken modulo the group's
    length 2, so the sub-folder's only thumbnail is pasted on column 1
    and column 0 of its row, the cell of the skipped item, stays empty:
    the grid is not compacted.  The rest of the claim holds: the error is
    caught and printed, and the stats line and the height are those of
    all three files. *)
Theorem failed_item_leaves_a_gap :
  exists r,
    generate_preview gap_host sample_time "/r" 5 true "#FFFFFF" "#000000"
      = Ok r /\
    log r = ["Error loading image '/r/s/bad.png': cannot identify image file"] /\
    pastes (drawn r) =
      [("/r/a.png", cell 5 274 0); ("/r/s/d.png", cell 5 726 1)] /\
    cell 5 726 0 = (48, 726) /\ cell 5 726 1 = (352, 726) /\
    grid_position 5 2 726 1 = cell 5 726 1 /\
    ~ In (cell 5 726 0) (map snd (pastes (drawn r))) /\
    headings (drawn r) =
      ["Found 3 images"; "- r (1 images)"; "- s (2 images)";
       "Created on 2024-03-09 14:05:07"] /\
    height r =
      output_height
        [[("/r", "a.png")]; [("/r/s", "bad.png"); ("/r/s", "d.png")]] 5 true.
Proof.
  eexists. split; [vm_compute; reflexivity|].
  split; [reflexivity|]. split; [vm_compute; reflexivity|].
  split; [reflexivity|]. split; [reflexivity|]. split; [reflexivity|].
  split; [|split; vm_compute; reflexivity].
  vm_compute. intros [H|[H|[]]]; discriminate H.
Qed.

(** ** ThumbnailNormalizer *)

Lemma make_thumbnail_canvas (txt_color : rgb) (image_path : string)
  (size : Z * Z) (t : thumbnail) :
  make_thumbnail txt_color image_path size = Ok t ->
  canvas_size t = (thumbnail_size, thumbnail_size) /\ fill t = txt_color /\
  1 <= fst (resized t) /\ 1 <= snd (resized t) /\
  (fst (resized t) = thumbnail_size \/ snd (resized t) = thumbnail_size) /\
  pasted_size t = (Z.min (fst (resized t)) thumbnail_size,
                   Z.min (snd (resized t)) thumbnail_size).
Proof.
  unfold make_thumbnail. destruct size as [iw ih].
  destruct (scaled_size iw ih) as [[nw nh]|e] eqn:Es; [|discriminate].
  assert (nw = thumbnail_size \/ nh = thumbnail_size) as Hlong.
  { unfold scaled_size in Es. destruct (iw >? ih).
    - destruct (scale_dim ih iw); [|discriminate]. injection Es as <- <-. now left.
    - destruct (scale_dim iw ih); [|discriminate]. injection Es as <- <-. now right. }
  destruct ((nw <? 1) || (nh <? 1)) eqn:Esmall; [discriminate|].
  apply orb_false_elim in Esmall as [Hw%Z.ltb_ge Hh%Z.ltb_ge].
  destruct ((nw >? thumbnail_size) || (nh >? thumbnail_size)) eqn:Ebig;
    intros [= <-]; unfold pasted_size;
    cbn [canvas_size fill resized crop fst snd];
    (repeat split; [lia|lia|exact Hlong|]).
  - unfold thumbnail_size in *. f_equal; lia.
  - apply orb_false_elim in Ebig as [Hw' Hh'].
    rewrite Z.gtb_ltb in Hw', Hh'. apply Z.ltb_ge in Hw', Hh'.
    rewrite !Z.min_l by lia. reflexivity.
Qed.

Example wide_source_is_padded :
  make_thumbnail (0, 0, 0) "wide.png" (512, 256) =
  Ok {| source := "wide.png"; canvas_size := (256, 256); fill := (0, 0, 0);
        resized := (256, 128); crop := None; paste_at := (0, 64) |}.
Proof. vm_compute. reflexivity. Qed.

Example tall_source_is_padded :
  make_thumbnail (0, 0, 0) "tall.png" (100, 400) =
  Ok {| source := "tall.png"; canvas_size := (256, 256); fill := (0, 0, 0);
        resized := (64, 256); crop := None; paste_at := (96, 0) |}.
Proof. vm_compute. reflexivity. Qed.

Example square_source_is_unchanged :
  make_thumbnail (0, 0, 0) "square.png" (256, 256) =
  Ok {| source := "square.png"; canvas_size := (256, 256); fill := (0, 0, 0);
        resized := (256, 256); crop := None; paste_at := (0, 0) |}.
Proof. vm_compute. reflexivity. Qed.

(** The scale factor is a binary64 quotient: for a 49x49 source,
    [49 * (256 / 49)] is just below 256 and truncates to 255. *)
Example square_of_49_loses_a_column :
  scaled_size 49 49 = Ok (255, 256).
Proof. vm_compute. reflexivity. Qed.

(** C3, evaluated where it fails: a decodable source of 1x300 pixels.
    Its width scales to [int(1 * (256 / 300)) = 0], [Image.resize] rejects
    the size, and the item is skipped: no thumbnail is made, where the
    claim has a 256x256 thumbnail for every source of positive size.  The
    three sources the claim names are normalised as it says. *)
Theorem thin_strip_has_no_thumbnail :
  scaled_size 1 300 = Ok (0, 256) /\
  make_thumbnail (0, 0, 0) "/r/strip.png" (1, 300) =
    Raise (ValueError "height and width must be > 0") /\
  (exists r,
     generate_preview strip_host sample_time "/r" 5 false "#FFFFFF" "#000000"
       = Ok r /\
     pastes (drawn r) = [("/r/wide.png", (48, 186))] /\
     log r = ["Error loading image '/r/strip.png': height and width must be > 0"]) /\
  scaled_size 512 256 = Ok (256, 128) /\
  scaled_size 100 400 = Ok (64, 256) /\
  scaled_size 256 256 = Ok (256, 256).
Proof.
  split; [vm_compute; reflexivity|]. split; [vm_compute; reflexivity|].
  split; [eexists; repeat split; vm_compute; reflexivity|].
  repeat split; vm_compute; reflexivity.
Qed.

(** ** TextLayoutEngine *)

Lemma append_assoc (a b c : string) :
  ((a ++ b) ++ c = a ++ (b ++ c))%string.
Proof. induction a as [|x a IH]; cbn; [reflexivity|now rewrite IH]. Qed.

Lemma append_empty_r (a : string) : (a ++ "")%string = a.
Proof. induction a as [|x a IH]; cbn; [reflexivity|now rewrite IH]. Qed.

Lemma append_non_empty (a b : string) : b <> "" -> (a ++ b)%string <> "".
Proof. destruct a; cbn; [auto|discriminate]. Qed.















(** * Further properties *)

(** ** Wrapping keeps the text *)

Lemma join_lines_app (l1 l2 : list string) :
  join_lines (l1 ++ l2) = (join_lines l1 ++ join_lines l2)%string.
Proof.
  induction l1 as [|x l1 IH]; cbn [app join_lines]; [reflexivity|].
  now rewrite IH, append_assoc.
Qed.

Lemma wrap_loop_keeps_text (getbbox : string -> Z * Z * Z * Z) (max_width : Z)
  (text : string) :
  forall lines current_line,
    (join_lines (fst (wrap_loop getbbox max_width text lines current_line))
     ++ snd (wrap_loop getbbox max_width text lines current_line))%string =
    (join_lines lines ++ current_line ++ text)%string.
Proof.
  induction text as [|c text IH]; intros lines current_line; cbn [wrap_loop].
  - cbn [fst snd]. now rewrite append_empty_r.
  - destruct (_ <=? _); rewrite IH.
    + now rewrite (append_assoc current_line).
    + rewrite join_lines_app. cbn [join_lines].
      rewrite append_empty_r, append_assoc. reflexivity.
Qed.

Lemma wrap_text_joined (getbbox : string -> Z * Z * Z * Z)
  (max_width : Z) (text : string) :
  join_lines (wrap_text text getbbox max_width) = text.
Proof.
  unfold wrap_text.
  pose proof (wrap_loop_keeps_text getbbox max_width text [] "") as H.
  destruct (wrap_loop getbbox max_width text [] "") as [lines current_line].
  cbn [fst snd join_lines append] in H.
  destruct current_line as [|c cur].
  - now rewrite append_empty_r in H.
  - rewrite join_lines_app. cbn [join_lines]. now rewrite append_empty_r.
Qed.

Lemma join_lines_length (lines : list string) :
  String.length (join_lines lines) =
  fold_right (fun line n => (String.length line + n)%nat) 0%nat lines.
Proof.
  induction lines as [|line lines IH]; [reflexivity|].
  cbn [join_lines fold_right]. rewrite <- IH.
  induction line as [|c line IHl]; cbn; [reflexivity|now rewrite IHl].
Qed.

(** X1: the lines returned by [wrap_text], put back together, are the
    text: wrapping drops no character and adds none, and the lengths of
    the lines add up to the length of the text. *)
Theorem wrap_text_keeps_text (getbbox : string -> Z * Z * Z * Z)
  (max_width : Z) (text : string) :
  join_lines (wrap_text text getbbox max_width) = text /\
  fold_right (fun line n => (String.length line + n)%nat) 0%nat
             (wrap_text text getbbox max_width) = String.length text.
Proof.
  split; [apply wrap_text_joined|].
  now rewrite <- join_lines_length, wrap_text_joined.
Qed.

(** ** Wrapped lines fit *)

Lemma wrap_loop_lines_fit (getbbox : string -> Z * Z * Z * Z) (max_width : Z)
  (text : string) :
  forall lines current_line,
    Forall (line_fits getbbox max_width) lines ->
    line_fits getbbox max_width current_line ->
    Forall (line_fits getbbox max_width)
           (fst (wrap_loop getbbox max_width text lines current_line)) /\
    line_fits getbbox max_width
              (snd (wrap_loop getbbox max_width text lines current_line)).
Proof.
  induction text as [|c text IH]; intros lines current_line Hl Hc;
    cbn [wrap_loop]; [now split|].
  destruct (_ <=? _) eqn:E; apply IH.
  - exact Hl.
  - right. now apply Z.leb_le.
  - apply Forall_app. split; [exact Hl|]. now constructor.
  - left. cbn. lia.
Qed.

(** X2: every line returned by [wrap_text] measures at most [max_width],
    unless it has at most one character (a single character wider than
    the maximum still gets a line of its own). *)
Theorem wrap_text_lines_fit (getbbox : string -> Z * Z * Z * Z)
  (max_width : Z) (text : string) :
  Forall (line_fits getbbox max_width) (wrap_text text getbbox max_width).
Proof.
  unfold wrap_text.
  destruct (wrap_loop_lines_fit getbbox max_width text [] "") as [Hl Hc];
    [constructor|left; cbn; lia|].
  destruct (wrap_loop getbbox max_width text [] "") as [lines current_line].
  cbn [fst snd] in Hl, Hc.
  destruct current_line; [exact Hl|].
  apply Forall_app. split; [exact Hl|]. now constructor.
Qed.

(** ** Empty lines *)

Lemma wrap_loop_frame (getbbox : string -> Z * Z * Z * Z) (max_width : Z)
  (text : string) :
  forall before lines current_line,
    wrap_loop getbbox max_width text (before ++ lines) current_line =
    ((before ++ fst (wrap_loop getbbox max_width text lines current_line))%list,
     snd (wrap_loop getbbox max_width text lines current_line)).
Proof.
  induction text as [|c text IH]; intros before lines current_line;
    cbn [wrap_loop]; [reflexivity|].
  destruct (_ <=? _); [apply IH|].
  rewrite <- app_assoc. apply IH.
Qed.

Lemma wrap_loop_non_empty_lines (getbbox : string -> Z * Z * Z * Z)
  (max_width : Z) (text : string) :
  forall current_line,
    current_line <> "" ->
    Forall (fun line => line <> "")
           (fst (wrap_loop getbbox max_width text [] current_line)) /\
    snd (wrap_loop getbbox max_width text [] current_line) <> "".
Proof.
  induction text as [|c text IH]; intros current_line Hc; cbn [wrap_loop];
    [now split|].
  destruct (_ <=? _).
  - apply IH. apply append_non_empty. discriminate.
  - rewrite (wrap_loop_frame getbbox max_width text [current_line] []).
    cbn [fst snd]. destruct (IH (String c "")) as [Hl Hs]; [discriminate|].
    split; [|exact Hs]. cbn [app]. now constructor.
Qed.

Lemma wrap_text_shape (getbbox : string -> Z * Z * Z * Z) (max_width : Z)
  (c : ascii) (rest : string) :
  (bbox_width (getbbox (String c "")) <= max_width /\
   Forall (fun line => line <> "")
          (wrap_text (String c rest) getbbox max_width) /\
   wrap_text (String c rest) getbbox max_width <> []) \/
  (max_width < bbox_width (getbbox (String c "")) /\
   exists more,
     wrap_text (String c rest) getbbox max_width = "" :: more /\
     Forall (fun line => line <> "") more).
Proof.
  unfold wrap_text. cbn [wrap_loop append].
  destruct (wrap_loop_non_empty_lines getbbox max_width rest (String c ""))
    as [Hl Hs]; [discriminate|].
  destruct (_ <=? _) eqn:E.
  - left. apply Z.leb_le in E. split; [exact E|].
    destruct (wrap_loop getbbox max_width rest [] (String c ""))
      as [lines cur]. cbn [fst snd] in Hl, Hs.
    destruct cur; [contradiction|]. split.
    + apply Forall_app. split; [exact Hl|].
      constructor; [discriminate|constructor].
    + destruct lines; discriminate.
  - right. apply Z.leb_gt in E. split; [exact E|].
    rewrite (wrap_loop_frame getbbox max_width rest [""] []).
    destruct (wrap_loop getbbox max_width rest [] (String c ""))
      as [lines cur]. cbn [fst snd app] in *.
    destruct cur; [contradiction|].
    eexists. split; [reflexivity|].
    apply Forall_app. split; [exact Hl|].
    constructor; [discriminate|constructor].
Qed.

Lemma wrap_text_tail_non_empty (getbbox : string -> Z * Z * Z * Z)
  (max_width : Z) (text : string) :
  Forall (fun line => line <> "") (tl (wrap_text text getbbox max_width)).
Proof.
  destruct text as [|c rest]; [constructor|].
  destruct (wrap_text_shape getbbox max_width c rest)
    as [(_ & Hall & _) | (_ & more & -> & Hmore)]; [|exact Hmore].
  destruct (wrap_text (String c rest) getbbox max_width);
    [constructor|now inversion Hall].
Qed.

(** X3: [wrap_text] returns no line exactly for the empty text; no line
    after the first is empty; and the first line is empty exactly when
    the first character alone is wider than [max_width]. *)
Theorem wrap_text_empty_lines (getbbox : string -> Z * Z * Z * Z)
  (max_width : Z) (text : string) :
  (wrap_text text getbbox max_width = [] <-> text = "") /\
  Forall (fun line => line <> "") (tl (wrap_text text getbbox max_width)) /\
  (forall c rest, text = String c rest ->
     (bbox_width (getbbox (String c "")) <= max_width ->
      Forall (fun line => line <> "") (wrap_text text getbbox max_width)) /\
     (max_width < bbox_width (getbbox (String c "")) ->
      hd_error (wrap_text text getbbox max_width) = Some "")).
Proof.
  split; [|split; [apply wrap_text_tail_non_empty|]].
  - destruct text as [|c rest]; [split; reflexivity|].
    split; [|discriminate].
    destruct (wrap_text_shape getbbox max_width c rest)
      as [(_ & _ & Hne) | (_ & more & -> & _)]; [contradiction|discriminate].
  - intros c rest ->.
    destruct (wrap_text_shape getbbox max_width c rest)
      as [(Hfit & Hall & _) | (Hover & more & -> & _)]; split; intros Hw;
      try lia; [exact Hall|reflexivity].
Qed.

Lemma wrap_text_empty_lines_witness :
  Forall (fun line => line <> "") (wrap_text "cat" sample_bbox 246).
Proof.
  destruct (wrap_text_empty_lines sample_bbox 246 "cat") as (_ & _ & Hfirst).
  destruct (Hfirst "c"%char "at" eq_refl) as [Hfit _].
  apply Hfit. vm_compute. discriminate.
Defined.

(** ** The caption of an item *)




(** ** Rows and canvas height *)

Lemma rows_ceiling (n images_per_row : Z) :
  1 <= images_per_row -> 0 <= n ->
  let rows := (n + images_per_row - 1) / images_per_row in
  0 <= rows /\ n <= rows * images_per_row /\
  rows * images_per_row < n + images_per_row.
Proof.
  intros Hipr Hn rows.
  pose proof (Z.div_mod (n + images_per_row - 1) images_per_row ltac:(lia)) as Hdm.
  pose proof (Z.mod_pos_bound (n + images_per_row - 1) images_per_row ltac:(lia)) as Hm.
  fold rows in Hdm.
  assert (0 <= rows) by (apply Z.div_pos; lia).
  repeat split; nia.
Qed.

Lemma len_cons {A : Type} (x : A) (l : list A) : len (x :: l) = 1 + len l.
Proof. unfold len. cbn [List.length]. lia. Qed.

Lemma total_images_cons (s : list image_item) (l : list (list image_item)) :
  total_images (s :: l) = len s + total_images l.
Proof. unfold total_images. cbn [map]. apply sum_cons. Qed.

(** X5: the canvas height is the zero-item height 324 plus 364 per row.
    Without sub-folders the number of rows is the least one that holds
    all discovered items; with sub-folders (and at least one item) each
    group adds a title band of 88 and the least number of rows that holds
    its own items. *)
Theorem canvas_height_in_rows (image_files : list (list image_item))
  (images_per_row : Z) :
  1 <= images_per_row ->
  (exists rows,
     output_height image_files images_per_row false = 324 + rows * 364 /\
     0 <= rows /\ total_images image_files <= rows * images_per_row /\
     forall r, total_images image_files <= r * images_per_row -> rows <= r) /\
  (total_images image_files <> 0 ->
   exists rows_of,
     output_height image_files images_per_row true =
       324 + sum (map (fun s => 88 + rows_of s * 364) image_files) /\
     forall s, 0 <= rows_of s /\ len s <= rows_of s * images_per_row /\
               forall r, len s <= r * images_per_row -> rows_of s <= r).
Proof.
  intros Hipr. split.
  - pose proof (total_images_nonneg image_files) as Ht.
    destruct (rows_ceiling (total_images image_files) images_per_row Hipr Ht)
      as (H0 & Hle & Hlt).
    exists ((total_images image_files + images_per_row - 1) / images_per_row).
    split; [|split; [exact H0|split; [exact Hle|intros r Hr; nia]]].
    unfold output_height.
    destruct (total_images image_files =? 0) eqn:E.
    + apply Z.eqb_eq in E. rewrite E.
      replace (0 + images_per_row - 1) with (images_per_row - 1) by lia.
      rewrite Z.div_small by lia. reflexivity.
    + unfold grid_spacing, stats_height, line_thickness, footer_height,
        thumbnail_size, text_height. lia.
  - intros Hne.
    exists (fun s => (len s + images_per_row - 1) / images_per_row).
    split.
    + unfold output_height.
      replace (total_images image_files =? 0) with false
        by (symmetry; now apply Z.eqb_neq).
      unfold grid_spacing, stats_height, line_thickness, footer_height,
        subfolder_title_height, thumbnail_size, text_height.
      assert (sum (map (fun s : list image_item =>
                          88 + (len s + images_per_row - 1) / images_per_row * 364)
                       image_files) =
              len image_files * 88 +
              sum (map (fun s : list image_item =>
                          (len s + images_per_row - 1) / images_per_row)
                       image_files) * 364) as ->.
      { clear Hne. induction image_files as [|s l IH].
        - reflexivity.
        - cbn [map]. rewrite !sum_cons, len_cons, IH. lia. }
      lia.
    + intros s. pose proof (len_nonneg s) as Hs.
      destruct (rows_ceiling (len s) images_per_row Hipr Hs) as (H0 & Hle & Hlt).
      split; [exact H0|split; [exact Hle|intros r Hr; nia]].
Qed.

Lemma canvas_height_in_rows_witness :
  exists rows,
    output_height [[("/r", "a.png"); ("/r", "b.png"); ("/r", "c.png")]] 2 false
      = 324 + rows * 364 /\
    0 <= rows /\ 3 <= rows * 2 /\ forall r, 3 <= r * 2 -> rows <= r.
Proof.
  destruct (proj1 (canvas_height_in_rows
                     [[("/r", "a.png"); ("/r", "b.png"); ("/r", "c.png")]] 2
                     ltac:(lia)))
    as (rows & Hh & H0 & Hle & Hleast).
  exists rows. repeat split; assumption.
Defined.

(** ** The grid stays on the canvas *)

Lemma grid_position_inside (images_per_row section_len current_y idx : Z) :
  1 <= images_per_row -> 1 <= section_len ->
  let x := fst (grid_position images_per_row section_len current_y idx) in
  let y := snd (grid_position images_per_row section_len current_y idx) in
  grid_spacing <= x /\
  x + thumbnail_size <= output_width images_per_row - grid_spacing /\
  current_y <= y /\
  y + (thumbnail_size + text_height + grid_spacing) <=
    current_y + (section_len + images_per_row - 1) / images_per_row
                * (thumbnail_size + text_height + grid_spacing).
Proof.
  intros Hipr Hlen. unfold grid_position; cbv zeta; cbn [fst snd].
  pose proof (Z.mod_pos_bound idx section_len ltac:(lia)) as Hm.
  set (m := idx mod section_len) in *.
  pose proof (Z.mod_pos_bound m images_per_row ltac:(lia)) as Hcol.
  assert (0 <= m / images_per_row) as Hrow0 by (apply Z.div_pos; lia).
  assert (m / images_per_row + 1 <=
          (section_len + images_per_row - 1) / images_per_row) as Hrow.
  { replace (section_len + images_per_row - 1)
      with (section_len - 1 + 1 * images_per_row) by lia.
    rewrite Z.div_add by lia.
    pose proof (Z.div_le_mono m (section_len - 1) images_per_row
                  ltac:(lia) ltac:(lia)). lia. }
  unfold output_width, grid_spacing, thumbnail_size, text_height.
  repeat split; nia.
Qed.

Lemma cell_inside_weaken (canvas_width top bottom bottom' : Z)
  (l : list (string * (Z * Z))) :
  bottom <= bottom' ->
  Forall (cell_inside canvas_width top bottom) l ->
  Forall (cell_inside canvas_width top bottom') l.
Proof.
  intros Hb H. eapply Forall_impl; [|exact H].
  intros [src [x y]]. unfold cell_inside; cbn [snd]. lia.
Qed.

Lemma draw_items_inside (w : world) (folder_path : string)
  (images_per_row : Z) (include_subfolders : bool) (txt_color : rgb)
  (section_len current_y top bottom : Z) (items : list image_item) :
  1 <= images_per_row -> 1 <= section_len -> top <= current_y ->
  current_y + (section_len + images_per_row - 1) / images_per_row
              * (thumbnail_size + text_height + grid_spacing) <= bottom ->
  forall st,
    Forall (cell_inside (output_width images_per_row) top bottom)
           (pastes (ops st)) ->
    Forall (cell_inside (output_width images_per_row) top bottom)
           (pastes (ops (fold_left
                           (draw_item w folder_path images_per_row
                                      include_subfolders txt_color
                                      section_len current_y) items st))).
Proof.
  intros Hipr Hlen Htop Hbottom.
  induction items as [|[root image_file] items IH]; intros st Hst;
    cbn [fold_left]; [exact Hst|].
  apply IH.
  destruct (load_thumbnail w txt_color (join root image_file)) as [t|e] eqn:E.
  - destruct (draw_item_pastes w folder_path images_per_row include_subfolders
                txt_color section_len current_y st root image_file t E)
      as (captions & Hcap & ->).
    cbn [ops]. rewrite pastes_app. cbn [pastes]. rewrite Hcap.
    apply Forall_app. split; [exact Hst|].
    constructor; [|constructor].
    pose proof (grid_position_inside images_per_row section_len current_y
                  (image_idx st) Hipr Hlen) as H.
    cbv zeta in H.
    destruct (grid_position images_per_row section_len current_y (image_idx st))
      as [x y].
    unfold cell_inside; cbn [fst snd] in *. lia.
  - rewrite (draw_item_skips _ _ _ _ _ _ _ _ _ _ _ E). exact Hst.
Qed.

Lemma section_extent_nonneg (images_per_row : Z) (s : list image_item) :
  1 <= images_per_row -> 0 <= section_extent images_per_row s.
Proof.
  intros Hipr. unfold section_extent.
  destruct (rows_ceiling (len s) images_per_row Hipr (len_nonneg s)) as (H0 & _).
  unfold subfolder_title_height, grid_spacing, thumbnail_size, text_height.
  destruct s; nia.
Qed.

Lemma draw_section_grouped_inside (w : world) (folder_path : string)
  (images_per_row : Z) (txt_color : rgb) (top current_y : Z) (p : painter)
  (s : list image_item) :
  1 <= images_per_row -> top <= current_y ->
  Forall (cell_inside (output_width images_per_row) top current_y)
         (pastes (ops p)) ->
  let st' := draw_section w folder_path images_per_row true txt_color
                          (current_y, p) s in
  fst st' = current_y + section_extent images_per_row s /\
  Forall (cell_inside (output_width images_per_row) top (fst st'))
         (pastes (ops (snd st'))).
Proof.
  intros Hipr Htop Hp. unfold draw_section, section_extent.
  destruct s as [|[subfolder_path fname] rest]; cbv beta iota zeta;
    cbn [fst snd].
  - cbn [fold_left].
    split; [unfold len; cbn; rewrite Z.div_small by lia; lia|].
    unfold len; cbn. rewrite Z.div_small by lia.
    eapply cell_inside_weaken; [|exact Hp]. lia.
  - split; [lia|].
    pose proof (len_nonneg rest) as Hrest.
    pose proof (len_cons (subfolder_path, fname) rest) as Hcons.
    destruct (rows_ceiling (len ((subfolder_path, fname) :: rest))
                images_per_row Hipr ltac:(lia)) as (H0 & _).
    apply draw_items_inside.
    + exact Hipr.
    + lia.
    + unfold subfolder_title_height, grid_spacing. lia.
    + lia.
    + cbn [ops]. rewrite pastes_app. cbn [pastes]. rewrite app_nil_r.
      eapply cell_inside_weaken; [|exact Hp].
      unfold subfolder_title_height, grid_spacing, thumbnail_size,
        text_height in *. nia.
Qed.

Lemma draw_sections_grouped_inside (w : world) (folder_path : string)
  (images_per_row : Z) (txt_color : rgb) (top : Z)
  (image_files : list (list image_item)) :
  1 <= images_per_row ->
  forall current_y p,
    top <= current_y ->
    Forall (cell_inside (output_width images_per_row) top current_y)
           (pastes (ops p)) ->
    let st' := fold_left (draw_section w folder_path images_per_row true txt_color)
                         image_files (current_y, p) in
    fst st' = current_y + sum (map (section_extent images_per_row) image_files) /\
    Forall (cell_inside (output_width images_per_row) top (fst st'))
           (pastes (ops (snd st'))).
Proof.
  intros Hipr. induction image_files as [|s l IH]; intros current_y p Htop Hp;
    cbn [fold_left map].
  - cbn [fst snd]. unfold sum; cbn. split; [lia|]. exact Hp.
  - destruct (draw_section_grouped_inside w folder_path images_per_row txt_color
                top current_y p s Hipr Htop Hp) as [Hy Hin].
    pose proof (section_extent_nonneg images_per_row s Hipr) as Hs.
    destruct (draw_section w folder_path images_per_row true txt_color
                           (current_y, p) s) as [cy' p'].
    cbn [fst snd] in Hy, Hin.
    destruct (IH cy' p' ltac:(lia) Hin) as [Hy' Hin'].
    split; [|exact Hin'].
    rewrite Hy', Hy, sum_cons. lia.
Qed.

Lemma section_extents_bounded (images_per_row : Z)
  (image_files : list (list image_item)) :
  1 <= images_per_row ->
  sum (map (section_extent images_per_row) image_files) <=
  len image_files * (subfolder_title_height + grid_spacing)
  + sum (map (fun s : list image_item =>
                (len s + images_per_row - 1) / images_per_row) image_files)
    * (thumbnail_size + text_height + grid_spacing).
Proof.
  intros Hipr. induction image_files as [|s l IH].
  - reflexivity.
  - cbn [map]. rewrite !sum_cons, len_cons. unfold section_extent at 1.
    unfold subfolder_title_height, grid_spacing, thumbnail_size, text_height in *.
    destruct s; lia.
Qed.

(** X6: in a successful render every pasted thumbnail, with its caption
    band and the spacing below it, lies inside the side margins and
    between the top divider's spacing and the bottom divider: the grid
    never runs off the canvas nor into the footer, whatever fails to load
    and however the running index falls. *)
Theorem thumbnails_stay_inside (w : world) (now : datetime)
  (folder_path : string) (images_per_row : Z) (include_subfolders : bool)
  (background_color text_color : string) (entries : list fs_node)
  (bg_color txt_color : rgb) :
  fs w folder_path = Some entries -> font_exists w = true ->
  font_error w = None ->
  hex_to_rgb background_color = Some bg_color ->
  hex_to_rgb text_color = Some txt_color ->
  1 <= images_per_row ->
  exists r,
    generate_preview w now folder_path images_per_row include_subfolders
                     background_color text_color = Ok r /\
    Forall (cell_inside
              (width r)
              (grid_spacing + stats_height + grid_spacing + line_thickness
               + grid_spacing)
              (height r - footer_height - grid_spacing - line_thickness
               - grid_spacing))
           (pastes (drawn r)).
Proof.
  intros Hfs Hfont Hload Hbg Htxt Hipr.
  eexists. split.
  - apply (generate_preview_runs w now folder_path images_per_row
             include_subfolders background_color text_color entries
             bg_color txt_color); assumption.
  - cbn [drawn width height]. rewrite pastes_app.
    replace (pastes (footer _ _ _ _)) with (@nil (string * (Z * Z)))
      by reflexivity.
    rewrite app_nil_r.
    set (image_files := discover include_subfolders folder_path entries).
    destruct (total_images image_files =? 0) eqn:Etotal; [constructor|].
    apply Z.eqb_neq in Etotal.
    set (top := grid_spacing + stats_height + grid_spacing + line_thickness
                + grid_spacing).
    destruct include_subfolders.
    + match goal with
      | |- context [fold_left _ image_files (top, ?p0)] =>
          destruct (draw_sections_grouped_inside w folder_path images_per_row
                      txt_color top image_files Hipr top p0 ltac:(lia)
                      ltac:(constructor)) as [Hy Hin]
      end.
      eapply cell_inside_weaken; [|exact Hin].
      rewrite Hy.
      pose proof (section_extents_bounded images_per_row image_files Hipr) as Hb.
      unfold output_height.
      replace (total_images image_files =? 0) with false
        by (symmetry; now apply Z.eqb_neq).
      subst top. lia.
    + subst image_files. cbn [discover] in *. unfold discover_flat in *.
      set (items := map (fun n : fs_node => (folder_path, node_name n))
                        (filter (fun n : fs_node =>
                                   is_regular n && eligible (node_name n))
                                entries)) in *.
      rewrite total_images_cons in Etotal.
      change (total_images []) with 0 in Etotal.
      pose proof (len_nonneg items) as Hitems.
      cbn [fold_left]. rewrite draw_section_flat. cbn [snd].
      apply draw_items_inside; try lia; [|constructor].
      unfold output_height.
      rewrite total_images_cons. change (total_images []) with 0.
      replace (len items + 0 =? 0) with false
        by (symmetry; apply Z.eqb_neq; lia).
      replace (len items + 0) with (len items) by lia.
      subst top. lia.
Qed.

Lemma thumbnails_stay_inside_witness :
  exists r,
    generate_preview two_folder_host sample_time "/r" 5 true
                     "#FFFFFF" "#000000" = Ok r /\
    Forall (cell_inside
              (width r)
              (grid_spacing + stats_height + grid_spacing + line_thickness
               + grid_spacing)
              (height r - footer_height - grid_spacing - line_thickness
               - grid_spacing))
           (pastes (drawn r)).
Proof.
  apply (thumbnails_stay_inside two_folder_host sample_time "/r" 5 true
           "#FFFFFF" "#000000" _ (255, 255, 255) (0, 0, 0)
           eq_refl eq_refl eq_refl eq_refl eq_refl ltac:(lia)).
Defined.

(** ** Every discovered item is pasted or reported *)

Lemma draw_items_account (w : world) (folder_path : string)
  (images_per_row : Z) (include_subfolders : bool) (txt_color : rgb)
  (section_len current_y : Z) (items : list image_item) :
  forall st,
    let st' := fold_left (draw_item w folder_path images_per_row
                                    include_subfolders txt_color
                                    section_len current_y) items st in
    map fst (pastes (ops st')) =
      (map fst (pastes (ops st))
       ++ filter (loads w txt_color) (map item_path items))%list /\
    printed st' =
      (printed st
       ++ map (report w txt_color)
              (filter (fun path => negb (loads w txt_color path))
                      (map item_path items)))%list.
Proof.
  induction items as [|[root image_file] items IH]; intros st; cbn [fold_left].
  - cbn. rewrite !app_nil_r. split; reflexivity.
  - cbv zeta in IH |- *.
    match goal with
    | |- context [fold_left _ items ?s] => destruct (IH s) as [Hp Hl]
    end.
    rewrite Hp, Hl. clear IH Hp Hl.
    cbn [map filter].
    change (item_path (root, image_file)) with (join root image_file).
    destruct (load_thumbnail w txt_color (join root image_file)) as [t|e] eqn:E.
    + assert (loads w txt_color (join root image_file) = true) as ->
        by (unfold loads; now rewrite E).
      destruct (draw_item_pastes w folder_path images_per_row include_subfolders
                  txt_color section_len current_y st root image_file t E)
        as (captions & Hcap & ->).
      cbn [ops printed negb]. rewrite pastes_app. cbn [pastes].
      rewrite Hcap, map_app. cbn [map fst].
      rewrite (load_thumbnail_source _ _ _ _ E), <- app_assoc.
      split; reflexivity.
    + assert (loads w txt_color (join root image_file) = false) as ->
        by (unfold loads; now rewrite E).
      rewrite (draw_item_skips _ _ _ _ _ _ _ _ _ _ _ E).
      cbn [ops printed negb map]. unfold report at 2. rewrite E.
      rewrite <- app_assoc. split; reflexivity.
Qed.

Lemma draw_section_account (w : world) (folder_path : string)
  (images_per_row : Z) (include_subfolders : bool) (txt_color : rgb)
  (current_y : Z) (p : painter) (s : list image_item) :
  let p' := snd (draw_section w folder_path images_per_row include_subfolders
                              txt_color (current_y, p) s) in
  map fst (pastes (ops p')) =
    (map fst (pastes (ops p))
     ++ filter (loads w txt_color) (map item_path s))%list /\
  printed p' =
    (printed p
     ++ map (report w txt_color)
            (filter (fun path => negb (loads w txt_color path))
                    (map item_path s)))%list.
Proof.
  unfold draw_section.
  destruct s as [|[subfolder_path fname] rest].
  - destruct include_subfolders; cbn; rewrite !app_nil_r; split; auto.
  - destruct include_subfolders; cbv beta iota zeta; cbn [snd];
      match goal with
      | |- context [fold_left (draw_item ?w ?fp ?ipr ?sub ?txt ?n ?cy) ?l ?st] =>
          destruct (draw_items_account w fp ipr sub txt n cy l st) as [Hp Hl];
          rewrite Hp, Hl
      end; cbn [ops printed]; [|split; reflexivity].
    rewrite pastes_app. cbn [pastes]. rewrite app_nil_r. split; reflexivity.
Qed.

Lemma draw_sections_account (w : world) (folder_path : string)
  (images_per_row : Z) (include_subfolders : bool) (txt_color : rgb)
  (image_files : list (list image_item)) :
  forall st,
    let p' := snd (fold_left (draw_section w folder_path images_per_row
                                           include_subfolders txt_color)
                             image_files st) in
    map fst (pastes (ops p')) =
      (map fst (pastes (ops (snd st)))
       ++ filter (loads w txt_color)
                 (map item_path (List.concat image_files)))%list /\
    printed p' =
      (printed (snd st)
       ++ map (report w txt_color)
              (filter (fun path => negb (loads w txt_color path))
                      (map item_path (List.concat image_files))))%list.
Proof.
  induction image_files as [|s l IH]; intros st; cbn [fold_left List.concat].
  - cbn. rewrite !app_nil_r. split; reflexivity.
  - cbv zeta in IH |- *.
    match goal with
    | |- context [fold_left _ l ?s'] => destruct (IH s') as [Hp Hl]
    end.
    rewrite Hp, Hl. clear IH Hp Hl.
    destruct st as [cy p].
    destruct (draw_section_account w folder_path images_per_row
                include_subfolders txt_color cy p s) as [Hp Hl].
    cbv zeta in Hp, Hl. rewrite Hp, Hl. cbn [snd].
    rewrite map_app, !filter_app, map_app, <- !app_assoc.
    split; reflexivity.
Qed.

Lemma filter_split_length {A : Type} (f : A -> bool) (l : list A) :
  (List.length (filter f l) + List.length (filter (fun x => negb (f x)) l))%nat
  = List.length l.
Proof.
  induction l as [|x l IH]; [reflexivity|].
  cbn [filter]. destruct (f x); cbn [negb List.length]; lia.
Qed.

(** X7: in a successful render the pasted thumbnails are exactly the
    discovered files that load, in discovery order, and the printed lines
    are one report per file that does not, in discovery order, naming its
    path and the cause; so thumbnails and printed lines together number
    the discovered total. *)
Theorem every_item_pasted_or_reported (w : world) (now : datetime)
  (folder_path : string) (images_per_row : Z) (include_subfolders : bool)
  (background_color text_color : string) (entries : list fs_node)
  (bg_color txt_color : rgb) :
  fs w folder_path = Some entries -> font_exists w = true ->
  font_error w = None ->
  hex_to_rgb background_color = Some bg_color ->
  hex_to_rgb text_color = Some txt_color ->
  1 <= images_per_row ->
  let paths :=
    map item_path
        (List.concat (discover include_subfolders folder_path entries)) in
  exists r,
    generate_preview w now folder_path images_per_row include_subfolders
                     background_color text_color = Ok r /\
    map fst (pastes (drawn r)) = filter (loads w txt_color) paths /\
    log r =
      map (report w txt_color)
          (filter (fun path => negb (loads w txt_color path)) paths) /\
    len (pastes (drawn r)) + len (log r) =
      total_images (discover include_subfolders folder_path entries).
Proof.
  intros Hfs Hfont Hload Hbg Htxt Hipr paths.
  set (image_files := discover include_subfolders folder_path entries) in *.
  assert (Hmain :
    exists r,
      generate_preview w now folder_path images_per_row include_subfolders
                       background_color text_color = Ok r /\
      map fst (pastes (drawn r)) = filter (loads w txt_color) paths /\
      log r =
        map (report w txt_color)
            (filter (fun path => negb (loads w txt_color path)) paths)).
  { eexists. split.
    - apply (generate_preview_runs w now folder_path images_per_row
               include_subfolders background_color text_color entries
               bg_color txt_color); assumption.
    - cbn [drawn log]. fold image_files. rewrite pastes_app.
      replace (pastes (footer _ _ _ _)) with (@nil (string * (Z * Z)))
        by reflexivity.
      rewrite app_nil_r.
      destruct (total_images image_files =? 0) eqn:Etotal.
      + apply Z.eqb_eq in Etotal. rewrite total_images_concat in Etotal.
        subst paths.
        destruct (List.concat image_files);
          [split; reflexivity|unfold len in Etotal; cbn in Etotal; lia].
      + match goal with
        | |- context [fold_left ?f image_files ?st] =>
            destruct (draw_sections_account w folder_path images_per_row
                        include_subfolders txt_color image_files st)
              as [Hp Hl]
        end.
        cbv zeta in Hp, Hl. cbn [snd ops printed pastes] in Hp, Hl.
        split; [exact Hp|exact Hl]. }
  destruct Hmain as (r & Hrun & Hp & Hl).
  exists r. split; [exact Hrun|]. split; [exact Hp|]. split; [exact Hl|].
  rewrite total_images_concat. unfold len.
  rewrite <- (length_map fst (pastes (drawn r))), Hp, Hl, length_map.
  rewrite <- Nat2Z.inj_add, filter_split_length. subst paths.
  now rewrite length_map.
Qed.

Lemma every_item_pasted_or_reported_witness :
  exists r,
    generate_preview strip_host sample_time "/r" 5 false "#FFFFFF" "#000000"
      = Ok r /\
    map fst (pastes (drawn r)) = ["/r/wide.png"] /\
    log r = ["Error loading image '/r/strip.png': height and width must be > 0"].
Proof.
  destruct (every_item_pasted_or_reported strip_host sample_time "/r" 5 false
              "#FFFFFF" "#000000" _ (255, 255, 255) (0, 0, 0)
              eq_refl eq_refl eq_refl eq_refl eq_refl ltac:(lia))
    as (r & Hrun & Hp & Hl & _).
  exists r. split; [exact Hrun|]. split; [exact Hp|exact Hl].
Defined.

(** ** Headings *)

Lemma headings_cons (op : draw_op) (l : list draw_op) :
  headings (op :: l) = (headings [op] ++ headings l)%list.
Proof.
  destruct op as [xy text fill size|xy0 xy1 fill|t xy]; cbn [headings];
    try reflexivity.
  repeat match goal with
         | |- context [match ?x with _ => _ end] => is_var x; destruct x
         end; reflexivity.
Qed.

Lemma headings_app (l1 l2 : list draw_op) :
  headings (l1 ++ l2) = (headings l1 ++ headings l2)%list.
Proof.
  induction l1 as [|op l1 IH]; [reflexivity|].
  cbn [app]. rewrite (headings_cons op (l1 ++ l2)), (headings_cons op l1), IH.
  now rewrite app_assoc.
Qed.

Lemma headings_draw_lines (lines : list string) (i x text_y : Z) (txt_color : rgb) :
  headings (draw_lines i lines x text_y txt_color) = [].
Proof.
  revert i; induction lines as [|line lines IH]; intros i; cbn; auto.
Qed.

Lemma draw_items_headings (w : world) (folder_path : string)
  (images_per_row : Z) (include_subfolders : bool) (txt_color : rgb)
  (section_len current_y : Z) (items : list image_item) :
  forall st,
    headings (ops (fold_left (draw_item w folder_path images_per_row
                                        include_subfolders txt_color
                                        section_len current_y) items st))
    = headings (ops st).
Proof.
  induction items as [|[root image_file] items IH]; intros st; cbn [fold_left];
    [reflexivity|].
  rewrite IH. unfold draw_item.
  destruct (load_thumbnail _ _ _); [|reflexivity].
  destruct (grid_position _ _ _ _) as [x y]. cbn [ops].
  rewrite headings_app. cbn [headings]. rewrite headings_draw_lines.
  now rewrite app_nil_r.
Qed.

Lemma draw_section_headings (w : world) (folder_path : string)
  (images_per_row : Z) (include_subfolders : bool) (txt_color : rgb)
  (current_y : Z) (p : painter) (s : list image_item) :
  headings (ops (snd (draw_section w folder_path images_per_row
                                   include_subfolders txt_color
                                   (current_y, p) s))) =
  (headings (ops p)
   ++ if include_subfolders && non_empty s
      then [section_title w folder_path s] else [])%list.
Proof.
  unfold draw_section.
  destruct s as [|[subfolder_path fname] rest].
  - destruct include_subfolders; cbn; now rewrite app_nil_r.
  - destruct include_subfolders; cbv beta iota zeta; cbn [snd];
      rewrite draw_items_headings; cbn [ops andb non_empty].
    + rewrite headings_app. reflexivity.
    + now rewrite app_nil_r.
Qed.

Lemma draw_sections_headings (w : world) (folder_path : string)
  (images_per_row : Z) (include_subfolders : bool) (txt_color : rgb)
  (image_files : list (list image_item)) :
  forall st,
    headings (ops (snd (fold_left (draw_section w folder_path images_per_row
                                                include_subfolders txt_color)
                                  image_files st))) =
    (headings (ops (snd st))
     ++ if include_subfolders
        then map (section_title w folder_path) (filter non_empty image_files)
        else [])%list.
Proof.
  induction image_files as [|s l IH]; intros st; cbn [fold_left].
  - destruct include_subfolders; cbn; now rewrite app_nil_r.
  - rewrite IH. destruct st as [cy p]. rewrite draw_section_headings.
    cbn [snd filter]. rewrite <- app_assoc. f_equal.
    destruct include_subfolders; cbn [andb]; [|reflexivity].
    destruct (non_empty s); reflexivity.
Qed.

Lemma filter_twice {A : Type} (f : A -> bool) (l : list A) :
  filter f (filter f l) = filter f l.
Proof.
  induction l as [|x l IH]; [reflexivity|].
  cbn [filter]. destruct (f x) eqn:E; [|exact IH].
  cbn [filter]. now rewrite E, IH.
Qed.

Lemma discover_recursive_non_empty (folder_path : string)
  (entries : list fs_node) :
  filter non_empty (discover true folder_path entries) =
  discover true folder_path entries.
Proof.
  cbn [discover]. rewrite discover_recursive_preorder.
  unfold sections_in_preorder. apply filter_twice.
Qed.

(** X8: the 24-point texts of a successful render are, in drawing
    order, the stats line, then with sub-folders one title per Section in
    discovery order (none without sub-folders), then the footer
    timestamp. *)
Theorem headings_of_a_render (w : world) (now : datetime)
  (folder_path : string) (images_per_row : Z) (include_subfolders : bool)
  (background_color text_color : string) (entries : list fs_node)
  (bg_color txt_color : rgb) :
  fs w folder_path = Some entries -> font_exists w = true ->
  font_error w = None ->
  hex_to_rgb background_color = Some bg_color ->
  hex_to_rgb text_color = Some txt_color ->
  1 <= images_per_row ->
  let image_files := discover include_subfolders folder_path entries in
  exists r,
    generate_preview w now folder_path images_per_row include_subfolders
                     background_color text_color = Ok r /\
    headings (drawn r) =
      (stats_text (total_images image_files)
       :: (if include_subfolders
           then map (section_title w folder_path) image_files else [])
       ++ [strftime_created_on now])%list.
Proof.
  intros Hfs Hfont Hload Hbg Htxt Hipr image_files.
  eexists. split.
  - apply (generate_preview_runs w now folder_path images_per_row
             include_subfolders background_color text_color entries
             bg_color txt_color); assumption.
  - cbn [drawn]. fold image_files. rewrite headings_app.
    replace (headings (footer _ _ _ _)) with [strftime_created_on now]
      by reflexivity.
    destruct (total_images image_files =? 0) eqn:Etotal.
    + cbn [headings divider app]. f_equal. f_equal.
      destruct include_subfolders; [|reflexivity].
      apply Z.eqb_eq in Etotal. rewrite total_images_concat in Etotal.
      subst image_files.
      pose proof (discover_recursive_non_empty folder_path entries) as Hne.
      destruct (discover true folder_path entries) as [|s l]; [reflexivity|].
      cbn [filter] in Hne. destruct s as [|item s].
      * cbn [non_empty] in Hne.
        assert (List.length (filter non_empty l) <= List.length l)%nat
          by apply filter_length_le.
        rewrite Hne in H. cbn in H. lia.
      * unfold len in Etotal. cbn in Etotal. lia.
    + rewrite draw_sections_headings. cbn [snd ops headings divider app].
      f_equal. f_equal.
      destruct include_subfolders; [|reflexivity].
      subst image_files. now rewrite discover_recursive_non_empty.
Qed.

Lemma headings_of_a_render_witness :
  exists r,
    generate_preview two_folder_host sample_time "/r" 5 true
                     "#FFFFFF" "#000000" = Ok r /\
    headings (drawn r) =
      ["Found 5 images"; "- r (3 images)"; "- s (2 images)";
       "Created on 2024-03-09 14:05:07"].
Proof.
  apply (headings_of_a_render two_folder_host sample_time "/r" 5 true
           "#FFFFFF" "#000000" _ (255, 255, 255) (0, 0, 0)
           eq_refl eq_refl eq_refl eq_refl eq_refl ltac:(lia)).
Defined.

(** ** Outcomes of the render *)

(** X9: what the image files decode to cannot make the render fail, nor
    change the error it raises: on two hosts that differ only in their
    images the render either returns a canvas on both, of the same size,
    background and 24-point texts, or raises the same error on both.  A
    render that returns a canvas had an existing folder, a font file that
    is present and loads, and two colours that parse. *)
Theorem image_failures_never_abort (w : world)
  (images : string -> result (Z * Z)) (now : datetime)
  (folder_path : string) (images_per_row : Z) (include_subfolders : bool)
  (background_color text_color : string) :
  (forall r,
     generate_preview w now folder_path images_per_row include_subfolders
                      background_color text_color = Ok r ->
     fs w folder_path <> None /\ font_exists w = true /\
     hex_to_rgb background_color <> None /\ hex_to_rgb text_color <> None /\
     font_error w = None) /\
  same_outcome
    (generate_preview w now folder_path images_per_row include_subfolders
                      background_color text_color)
    (generate_preview (with_images w images) now folder_path images_per_row
                      include_subfolders background_color text_color).
Proof.
  split.
  - intros r Hrun. unfold generate_preview in Hrun.
    destruct (fs w folder_path) as [entries|]; [|discriminate].
    destruct (font_exists w); [|discriminate]. cbn [negb] in Hrun.
    destruct (hex_to_rgb background_color); [|discriminate].
    destruct (hex_to_rgb text_color); [|discriminate].
    destruct (negb _ && _); [discriminate|].
    destruct (_ || _); [discriminate|].
    destruct (font_error w); [discriminate|].
    repeat split; discriminate.
  - unfold generate_preview, same_outcome.
    change (fs (with_images w images)) with (fs w).
    change (font_exists (with_images w images)) with (font_exists w).
    change (font_error (with_images w images)) with (font_error w).
    change (font_path (with_images w images)) with (font_path w).
    destruct (fs w folder_path) as [entries|]; [|reflexivity].
    destruct (font_exists w); [|reflexivity]. cbn [negb].
    destruct (hex_to_rgb background_color) as [bg_color|]; [|reflexivity].
    destruct (hex_to_rgb text_color) as [txt_color|]; [|reflexivity].
    destruct (negb _ && _); [reflexivity|].
    destruct (_ || _); [reflexivity|].
    destruct (font_error w); [reflexivity|].
    destruct (total_images _ =? 0); [repeat split|].
    pose proof (draw_sections_headings w folder_path images_per_row
                  include_subfolders txt_color
                  (discover include_subfolders folder_path entries)) as H.
    pose proof (draw_sections_headings (with_images w images) folder_path
                  images_per_row include_subfolders txt_color
                  (discover include_subfolders folder_path entries)) as H'.
    match goal with
    | |- context [fold_left (draw_section w _ _ _ _) _ ?st] =>
        specialize (H st); specialize (H' st)
    end.
    destruct (fold_left (draw_section w _ _ _ _) _ _) as [cy p].
    destruct (fold_left (draw_section (with_images w images) _ _ _ _) _ _)
      as [cy' p'].
    cbn [snd width height background drawn] in *.
    repeat split.
    rewrite !headings_app, H, H'. reflexivity.
Qed.

Lemma image_failures_never_abort_witness :
  (fs strip_host "/r" <> None /\ font_exists strip_host = true /\
   hex_to_rgb "#FFFFFF" <> None /\ hex_to_rgb "#000000" <> None /\
   font_error strip_host = None) /\
  same_outcome
    (generate_preview strip_host sample_time "/r" 5 false "#FFFFFF" "#000000")
    (generate_preview
       (with_images strip_host
                    (fun _ => Raise (OtherError "cannot identify image file")))
       sample_time "/r" 5 false "#FFFFFF" "#000000").
Proof.
  split.
  - eapply (proj1 (image_failures_never_abort strip_host
                     (fun _ => Raise (OtherError "cannot identify image file"))
                     sample_time "/r" 5 false "#FFFFFF" "#000000")).
    vm_compute. reflexivity.
  - apply (proj2 (image_failures_never_abort strip_host
                    (fun _ => Raise (OtherError "cannot identify image file"))
                    sample_time "/r" 5 false "#FFFFFF" "#000000")).
Defined.

(** X10: the checks are made in the order folder, font file, colours,
    font load, and the first that fails decides the error: with the
    folder present and the font file missing the render raises
    [FileNotFoundError] naming the font path, whatever the colours; with
    those and the colours in order, a font that fails to load raises
    [ValueError] naming the font path and the cause. *)
Theorem font_errors (w : world) (now : datetime)
  (folder_path : string) (images_per_row : Z) (include_subfolders : bool)
  (background_color text_color : string) :
  let run := generate_preview w now folder_path images_per_row
                              include_subfolders background_color text_color in
  (fs w folder_path <> None -> font_exists w = false ->
   run = Raise (FileNotFoundError
                  ("Font file '" ++ font_path w ++ "' not found!")%string) /\
   contains (exn_text (FileNotFoundError
                         ("Font file '" ++ font_path w ++ "' not found!")%string))
            (font_path w) = true) /\
  (forall e,
     fs w folder_path <> None -> font_exists w = true ->
     hex_to_rgb background_color <> None -> hex_to_rgb text_color <> None ->
     1 <= images_per_row -> font_error w = Some e ->
     run = Raise (ValueError
                    ("Failed to load font '" ++ font_path w ++ "': " ++ e)%string) /\
     contains ("Failed to load font '" ++ font_path w ++ "': " ++ e)%string
              (font_path w) = true).
Proof.
  intros run; subst run; split.
  - intros Hfs Hfont. unfold generate_preview.
    destruct (fs w folder_path); [|contradiction].
    rewrite Hfont. cbn [negb exn_text].
    split; [reflexivity|apply contains_middle].
  - intros e Hfs Hfont Hbg Htxt Hipr Hload. unfold generate_preview.
    destruct (fs w folder_path) as [entries|]; [|contradiction].
    rewrite Hfont, Hload. cbn [negb].
    destruct (hex_to_rgb background_color); [|contradiction].
    destruct (hex_to_rgb text_color); [|contradiction].
    replace (images_per_row =? 0) with false by (symmetry; apply Z.eqb_neq; lia).
    rewrite andb_false_r.
    pose proof (output_width_pos images_per_row Hipr) as Hw.
    pose proof (output_height_pos
                  (discover include_subfolders folder_path entries)
                  images_per_row include_subfolders Hipr) as Hh.
    replace (output_width images_per_row <? 0) with false
      by (symmetry; apply Z.ltb_ge; lia).
    replace (output_height _ _ _ <? 0) with false
      by (symmetry; apply Z.ltb_ge; lia).
    cbn [orb]. split; [reflexivity|].
    apply (contains_middle "Failed to load font '" (font_path w)
                           ("': " ++ e)%string).
Qed.

Lemma font_errors_witness :
  generate_preview fontless_host sample_time "/r" 5 false
                   "not a colour" "#000000" =
  Raise (FileNotFoundError "Font file '/m/font/lanting.ttf' not found!") /\
  generate_preview broken_font_host sample_time "/r" 5 false
                   "#FFFFFF" "#000000" =
  Raise (ValueError
           "Failed to load font '/m/font/lanting.ttf': unknown file format").
Proof.
  split.
  - apply (proj1 (font_errors fontless_host sample_time "/r" 5 false
                              "not a colour" "#000000"));
      [cbn; discriminate|reflexivity].
  - apply (proj2 (font_errors broken_font_host sample_time "/r" 5 false
                              "#FFFFFF" "#000000") "unknown file format");
      [cbn; discriminate|reflexivity|cbn; discriminate|cbn; discriminate
      |lia|reflexivity].
Defined.

(** ** Colour channels *)

Lemma substring_two_shape (n : nat) (s : string) :
  substring n 2 s = "" \/
  (exists c, substring n 2 s = String c "") \/
  (exists c1 c2, substring n 2 s = String c1 (String c2 "")).
Proof.
  revert s; induction n as [|n IH]; intros s.
  - destruct s as [|c1 [|c2 s]]; cbn [substring].
    + now left.
    + right; left. now exists c1.
    + right; right. exists c1, c2. now rewrite substring_nothing.
  - destruct s as [|c s]; cbn [substring]; [now left|apply IH].
Qed.

Lemma int_base16_field_bounds (s : string) (v : Z) :
  (String.length s <= 2)%nat -> int_base16 s = Some v -> -15 <= v <= 255.
Proof.
  assert (H1 : forallb (fun c =>
                 match int_base16 (String c "") with
                 | Some v => (-15 <=? v) && (v <=? 255)
                 | None => true
                 end) all_ascii = true) by (vm_compute; reflexivity).
  assert (H2 : forallb (fun c1 => forallb (fun c2 =>
                 match int_base16 (String c1 (String c2 "")) with
                 | Some v => (-15 <=? v) && (v <=? 255)
                 | None => true
                 end) all_ascii) all_ascii = true) by (vm_compute; reflexivity).
  intros Hlen Hv.
  destruct s as [|c1 [|c2 [|c3 s]]]; cbn in Hlen; try lia.
  - discriminate.
  - pose proof (forallb_all_ascii _ H1 c1) as Hb. cbv beta in Hb.
    rewrite Hv in Hb. apply andb_prop in Hb as [?%Z.leb_le ?%Z.leb_le]. lia.
  - pose proof (forallb_all_ascii _ H2 c1) as Hb1. cbv beta in Hb1.
    pose proof (forallb_all_ascii _ Hb1 c2) as Hb. cbv beta in Hb.
    rewrite Hv in Hb. apply andb_prop in Hb as [?%Z.leb_le ?%Z.leb_le]. lia.
Qed.

(** X11: every channel of a colour that parses lies between -15 and 255;
    a signed field such as [-F] gives a negative channel, so a parsed
    colour need not be a byte triple. *)
Theorem parsed_channels_bounded :
  (forall color r g b,
     hex_to_rgb color = Some (r, g, b) ->
     -15 <= r <= 255 /\ -15 <= g <= 255 /\ -15 <= b <= 255) /\
  hex_to_rgb "#-F-F-F" = Some (-15, -15, -15).
Proof.
  split; [|reflexivity].
  intros color r g b. rewrite hex_to_rgb_fields; cbv zeta. unfold slice.
  assert (Hfield : forall n v,
            int_base16 (substring n 2 (lstrip is_hash color)) = Some v ->
            -15 <= v <= 255).
  { intros n v. apply int_base16_field_bounds.
    destruct (substring_two_shape n (lstrip is_hash color))
      as [-> | [[c ->] | (c1 & c2 & ->)]]; cbn; lia. }
  destruct (int_base16 (substring 0 2 _)) as [r'|] eqn:Er; [|discriminate].
  destruct (int_base16 (substring 2 2 _)) as [g'|] eqn:Eg; [|discriminate].
  destruct (int_base16 (substring 4 2 _)) as [b'|] eqn:Eb; [|discriminate].
  intros [= <- <- <-].
  split; [|split]; eapply Hfield; eassumption.
Qed.

Lemma parsed_channels_bounded_witness :
  -15 <= 18 <= 255 /\ -15 <= 52 <= 255 /\ -15 <= 5 <= 255.
Proof.
  apply (proj1 parsed_channels_bounded "12345" 18 52 5). reflexivity.
Defined.

Lemma hex_digit_char_value (upper : bool) (d : Z) :
  0 <= d <= 15 ->
  hex_digit_value (hex_digit_char upper d) = Some d /\
  is_hash (hex_digit_char upper d) = false.
Proof.
  intros Hd.
  assert (d = 0 \/ d = 1 \/ d = 2 \/ d = 3 \/ d = 4 \/ d = 5 \/ d = 6 \/ d = 7 \/
          d = 8 \/ d = 9 \/ d = 10 \/ d = 11 \/ d = 12 \/ d = 13 \/ d = 14 \/
          d = 15) as Hcases by lia.
  destruct upper;
    repeat (destruct Hcases as [-> | Hcases]; [split; reflexivity|]);
    subst d; split; reflexivity.
Qed.

(** X12: every colour of three bytes, written as [#RRGGBB] in upper or
    lower case, parses back to itself. *)
Theorem format_then_parse (upper : bool) (r g b : Z) :
  0 <= r <= 255 -> 0 <= g <= 255 -> 0 <= b <= 255 ->
  hex_to_rgb (format_rgb upper (r, g, b)) = Some (r, g, b).
Proof.
  intros Hr Hg Hb.
  assert (Hdig : forall v, 0 <= v <= 255 ->
                           0 <= v / 16 <= 15 /\ 0 <= v mod 16 <= 15 /\
                           16 * (v / 16) + v mod 16 = v).
  { intros v Hv. pose proof (Z.div_mod v 16 ltac:(lia)).
    pose proof (Z.mod_pos_bound v 16 ltac:(lia)).
    assert (0 <= v / 16) by (apply Z.div_pos; lia).
    assert (v / 16 < 16) by (apply Z.div_lt_upper_bound; lia).
    lia. }
  destruct (Hdig r Hr) as (Hr1 & Hr2 & Er).
  destruct (Hdig g Hg) as (Hg1 & Hg2 & Eg).
  destruct (Hdig b Hb) as (Hb1 & Hb2 & Eb).
  rewrite <- Er, <- Eg, <- Eb at 2.
  unfold format_rgb.
  eapply six_digits_accepted;
    try (apply hex_digit_char_value; assumption).
  cbn [lstrip]. change (is_hash "#") with true. cbv iota.
  cbn [lstrip].
  rewrite (proj2 (hex_digit_char_value upper (r / 16) Hr1)). reflexivity.
Qed.

Lemma format_then_parse_witness :
  hex_to_rgb "#1a2b3c" = Some (26, 43, 60) /\
  hex_to_rgb "#1A2B3C" = Some (26, 43, 60).
Proof.
  split.
  - apply (format_then_parse false 26 43 60); lia.
  - apply (format_then_parse true 26 43 60); lia.
Defined.

(** ** Discovered items *)

Lemma section_of_items (visited : string * list fs_node) (item : image_item) :
  In item (section_of visited) ->
  fst item = fst visited /\ eligible (snd item) = true.
Proof.
  destruct visited as [root es]. unfold section_of.
  intros H. apply in_map_iff in H as (f & <- & Hf).
  apply filter_In in Hf as [_ Hf]. now split.
Qed.

(** X13: every item of every discovered Section has an eligible file
    name, and the items of a Section share one directory.  Without
    sub-folders there is exactly one Section (possibly empty), its
    directory is the folder itself and each item is a regular file of the
    folder's own listing. *)
Theorem discovered_items (include_subfolders : bool) (folder_path : string)
  (entries : list fs_node) :
  (forall section,
     In section (discover include_subfolders folder_path entries) ->
     exists root,
       forall item, In item section ->
                    fst item = root /\ eligible (snd item) = true) /\
  (include_subfolders = false ->
   exists section,
     discover include_subfolders folder_path entries = [section] /\
     forall item, In item section ->
       fst item = folder_path /\
       exists n, In n entries /\ is_regular n = true /\
                 node_name n = snd item).
Proof.
  split.
  - intros section Hin. destruct include_subfolders; cbn [discover] in Hin.
    + rewrite discover_recursive_preorder in Hin. unfold sections_in_preorder in Hin.
      apply filter_In in Hin as [Hin _].
      apply in_map_iff in Hin as (visited & <- & _).
      exists (fst visited). intros item. apply section_of_items.
    + unfold discover_flat in Hin. destruct Hin as [<- | []].
      exists folder_path. intros item Hitem.
      apply in_map_iff in Hitem as (n & <- & Hn).
      apply filter_In in Hn as [_ Hn]. apply andb_prop in Hn as [_ Hn].
      now split.
  - intros ->. cbn [discover]. unfold discover_flat.
    eexists. split; [reflexivity|].
    intros item Hitem. apply in_map_iff in Hitem as (n & <- & Hn).
    apply filter_In in Hn as [Hin Hn]. apply andb_prop in Hn as [Hreg _].
    split; [reflexivity|]. exists n. now repeat split.
Qed.

Lemma discovered_items_witness :
  exists root,
    forall item, In item [("/r/s", "d.png"); ("/r/s", "e.png")] ->
                 fst item = root /\ eligible (snd item) = true.
Proof.
  apply (proj1 (discovered_items true "/r"
                  [File "a.png" true; File "b.png" true; File "c.png" true;
                   Dir "s" false [File "d.png" true; File "e.png" true]])).
  right. left. reflexivity.
Defined.

Lemma flat_files_among_walked (entries : list fs_node) :
  (List.length (filter (fun n => is_regular n && eligible (node_name n)) entries)
   <= List.length (filter eligible (filenames entries)))%nat.
Proof.
  unfold filenames.
  induction entries as [|n l IH]; [reflexivity|].
  destruct n as [name regular|name symlink children];
    cbn [filter is_regular is_dir_node negb node_name andb map].
  - destruct regular; cbn [andb]; destruct (eligible name);
      cbn [List.length]; lia.
  - exact IH.
Qed.

(** X14: turning sub-folders on never finds fewer images: the total
    discovered without sub-folders is at most the total discovered with
    them. *)
Theorem subfolders_find_no_fewer (folder_path : string)
  (entries : list fs_node) :
  total_images (discover false folder_path entries) <=
  total_images (discover true folder_path entries).
Proof.
  rewrite !total_images_concat. cbn [discover].
  rewrite discover_recursive_preorder. unfold sections_in_preorder.
  rewrite concat_non_empty, <- flat_map_concat_map.
  unfold discover_flat. cbn [List.concat preorder flat_map].
  rewrite app_nil_r, len_app.
  match goal with |- _ <= _ + len ?rest => pose proof (len_nonneg rest) end.
  unfold section_of at 1. unfold len at 1 2.
  rewrite !length_map.
  pose proof (flat_files_among_walked entries). lia.
Qed.

(** ** The thumbnail canvas *)

(** X15: whenever a thumbnail is made, what is pasted on its 256x256
    canvas lies inside the canvas, spans it fully in at least one
    direction, and is centred: the margins on opposite sides differ by at
    most one pixel. *)
Theorem thumbnail_is_centred (txt_color : rgb) (image_path : string)
  (size : Z * Z) (t : thumbnail) :
  make_thumbnail txt_color image_path size = Ok t ->
  let px := fst (paste_at t) in
  let py := snd (paste_at t) in
  let pw := fst (pasted_size t) in
  let ph := snd (pasted_size t) in
  canvas_size t = (256, 256) /\
  0 <= px /\ px + pw <= 256 /\ 0 <= py /\ py + ph <= 256 /\
  (pw = 256 \/ ph = 256) /\
  0 <= (256 - pw - px) - px <= 1 /\ 0 <= (256 - ph - py) - py <= 1.
Proof.
  unfold make_thumbnail. destruct size as [iw ih].
  destruct (scaled_size iw ih) as [[nw nh]|e] eqn:Es; [|discriminate].
  assert (nw = thumbnail_size \/ nh = thumbnail_size) as Hlong.
  { unfold scaled_size in Es. destruct (iw >? ih).
    - destruct (scale_dim ih iw); [|discriminate]. injection Es as <- <-. now left.
    - destruct (scale_dim iw ih); [|discriminate]. injection Es as <- <-. now right. }
  destruct ((nw <? 1) || (nh <? 1)) eqn:Esmall; [discriminate|].
  apply orb_false_elim in Esmall as [Hw%Z.ltb_ge Hh%Z.ltb_ge].
  destruct ((nw >? thumbnail_size) || (nh >? thumbnail_size)) eqn:Ebig;
    intros Ht;
    match type of Ht with
    | Ok ?made = Ok t => assert (t = made) as -> by congruence
    end; clear Ht; unfold pasted_size;
    cbn [canvas_size paste_at resized crop fst snd];
    unfold thumbnail_size in *.
  - repeat split; lia.
  - apply orb_false_elim in Ebig as [Hw' Hh'].
    rewrite Z.gtb_ltb in Hw', Hh'. apply Z.ltb_ge in Hw', Hh'.
    pose proof (Z.div_mod (256 - nw) 2 ltac:(lia)).
    pose proof (Z.mod_pos_bound (256 - nw) 2 ltac:(lia)).
    pose proof (Z.div_mod (256 - nh) 2 ltac:(lia)).
    pose proof (Z.mod_pos_bound (256 - nh) 2 ltac:(lia)).
    repeat split; try reflexivity; lia.
Qed.

Lemma thumbnail_is_centred_witness :
  canvas_size
    {| source := "tall.png"; canvas_size := (256, 256); fill := (0, 0, 0);
       resized := (64, 256); crop := None; paste_at := (96, 0) |} = (256, 256) /\
  0 <= 96 /\ 96 + 64 <= 256 /\ 0 <= 0 /\ 0 + 256 <= 256 /\
  (64 = 256 \/ 256 = 256) /\
  0 <= (256 - 64 - 96) - 96 <= 1 /\ 0 <= (256 - 256 - 0) - 0 <= 1.
Proof.
  apply (thumbnail_is_centred (0, 0, 0) "tall.png" (100, 400)).
  vm_compute. reflexivity.
Defined.

(** ** Sources no larger than the thumbnail *)

Lemma in_small_sides (a : Z) : 1 <= a <= 256 -> In a small_sides.
Proof.
  intros Ha. unfold small_sides.
  rewrite <- (Z2Nat.id a) by lia.
  apply in_map, in_seq. lia.
Qed.

Lemma small_sides_scale (a b : Z) :
  1 <= a <= b -> b <= 256 -> scale_checked a b = true.
Proof.
  assert (H : forallb (fun b =>
                forallb (fun a => if b <? a then true else scale_checked a b)
                        small_sides) small_sides = true)
    by (vm_compute; reflexivity).
  intros Ha Hb.
  rewrite forallb_forall in H.
  pose proof (H b (in_small_sides b ltac:(lia))) as H'.
  rewrite forallb_forall in H'.
  pose proof (H' a (in_small_sides a ltac:(lia))) as H''.
  replace (b <? a) with false in H'' by (symmetry; apply Z.ltb_ge; lia).
  exact H''.
Qed.

(** X16: every source of at most 256x256 pixels gets a thumbnail and is
    padded, never cropped: its longer side is scaled to 256 and its
    shorter side to the exact quotient [short * 256 / long] rounded down,
    or to one pixel less where that quotient is a whole number and the
    floating-point product falls just below it. *)
Theorem small_sources_are_padded (txt_color : rgb) (image_path : string)
  (img_width img_height : Z) :
  1 <= img_width <= 256 -> 1 <= img_height <= 256 ->
  let short := Z.min img_width img_height in
  let long := Z.max img_width img_height in
  exists t n,
    make_thumbnail txt_color image_path (img_width, img_height) = Ok t /\
    crop t = None /\
    resized t = (if img_width >? img_height then (256, n) else (n, 256)) /\
    1 <= n <= 256 /\
    (n = short * 256 / long \/
     (short * 256 mod long = 0 /\ n = short * 256 / long - 1)).
Proof.
  intros Hw Hh short long.
  assert (Hscale : scale_checked short long = true)
    by (apply small_sides_scale; subst short long; lia).
  unfold scale_checked in Hscale.
  destruct (scale_dim short long) as [n|e] eqn:En; [|discriminate].
  apply andb_prop in Hscale as [Hrange Hval].
  apply andb_prop in Hrange as [H1%Z.leb_le H256%Z.leb_le].
  assert (Hn : n = short * 256 / long \/
               (short * 256 mod long = 0 /\ n = short * 256 / long - 1)).
  { apply orb_prop in Hval as [Hv%Z.eqb_eq | Hv]; [now left|].
    apply andb_prop in Hv as [Hm%Z.eqb_eq Hv%Z.eqb_eq]. now right. }
  unfold make_thumbnail, scaled_size.
  destruct (img_width >? img_height) eqn:Egt.
  - assert (short = img_height /\ long = img_width) as [Es El]
      by (rewrite Z.gtb_ltb in Egt; apply Z.ltb_lt in Egt; subst short long; lia).
    rewrite Es, El in En. rewrite En.
    replace ((thumbnail_size <? 1) || (n <? 1)) with false
      by (symmetry; apply orb_false_intro; apply Z.ltb_ge;
          unfold thumbnail_size; lia).
    replace ((thumbnail_size >? thumbnail_size) || (n >? thumbnail_size))
      with false
      by (symmetry; rewrite !Z.gtb_ltb; apply orb_false_intro; apply Z.ltb_ge;
          unfold thumbnail_size; lia).
    eexists; exists n. repeat split; try reflexivity; try lia; exact Hn.
  - assert (short = img_width /\ long = img_height) as [Es El]
      by (rewrite Z.gtb_ltb in Egt; apply Z.ltb_ge in Egt; subst short long; lia).
    rewrite Es, El in En. rewrite En.
    replace ((n <? 1) || (thumbnail_size <? 1)) with false
      by (symmetry; apply orb_false_intro; apply Z.ltb_ge;
          unfold thumbnail_size; lia).
    replace ((n >? thumbnail_size) || (thumbnail_size >? thumbnail_size))
      with false
      by (symmetry; rewrite !Z.gtb_ltb; apply orb_false_intro; apply Z.ltb_ge;
          unfold thumbnail_size; lia).
    eexists; exists n. repeat split; try reflexivity; try lia; exact Hn.
Qed.

Lemma small_sources_are_padded_witness :
  exists t n,
    make_thumbnail (0, 0, 0) "square.png" (49, 49) = Ok t /\
    crop t = None /\ resized t = (n, 256) /\ 1 <= n <= 256 /\
    (n = 256 \/ (0 = 0 /\ n = 255)).
Proof.
  apply (small_sources_are_padded (0, 0, 0) "square.png" 49 49); lia.
Defined.

(** ** Eligible file names *)












(** ** Thumbnails do not overlap *)

Lemma window_succ (k : Z) (m : nat) :
  window k (S m) = k :: window (k + 1) m.
Proof.
  unfold window. cbn [seq map]. f_equal; [lia|].
  rewrite <- seq_shift, map_map. apply map_ext. intros j. lia.
Qed.

Lemma in_window (k : Z) (m : nat) (i : Z) :
  In i (window k m) <-> k <= i < k + Z.of_nat m.
Proof.
  unfold window. rewrite in_map_iff. split.
  - intros (j & <- & Hj). apply in_seq in Hj. lia.
  - intros Hi. exists (Z.to_nat (i - k)). split; [lia|]. apply in_seq. lia.
Qed.

Lemma grid_position_injective (images_per_row section_len current_y i j : Z) :
  1 <= images_per_row -> 1 <= section_len ->
  i < j < i + section_len ->
  grid_position images_per_row section_len current_y i <>
  grid_position images_per_row section_len current_y j.
Proof.
  intros Hipr Hlen Hij. unfold grid_position; cbv zeta.
  pose proof (Z.div_mod i section_len ltac:(lia)) as Hi.
  pose proof (Z.mod_pos_bound i section_len ltac:(lia)) as Hib.
  pose proof (Z.div_mod j section_len ltac:(lia)) as Hj.
  pose proof (Z.mod_pos_bound j section_len ltac:(lia)) as Hjb.
  set (a := i mod section_len) in *. set (b := j mod section_len) in *.
  assert (a <> b) as Hab.
  { intros Heq.
    set (d := j / section_len - i / section_len).
    assert (section_len * d = j - i) as Hd by (subst d; lia).
    destruct (Z_le_gt_dec d 0).
    - assert (section_len * d <= 0) by (apply Z.mul_nonneg_nonpos; lia). lia.
    - assert (section_len * 1 <= section_len * d)
        by (apply Z.mul_le_mono_nonneg_l; lia).
      lia. }
  pose proof (Z.div_mod a images_per_row ltac:(lia)) as Ha.
  pose proof (Z.div_mod b images_per_row ltac:(lia)) as Hb.
  unfold grid_spacing, thumbnail_size, text_height.
  intros Hpos.
  pose proof (f_equal fst Hpos) as Hx. pose proof (f_equal snd Hpos) as Hy.
  cbn [fst snd] in Hx, Hy.
  assert (a mod images_per_row = b mod images_per_row) as Hcol by lia.
  assert (a / images_per_row = b / images_per_row) as Hrow by lia.
  rewrite Hcol, Hrow in Ha. lia.
Qed.

Lemma window_positions_distinct (images_per_row section_len current_y : Z)
  (m : nat) :
  1 <= images_per_row -> 1 <= section_len ->
  forall k, Z.of_nat m <= section_len ->
    NoDup (map (grid_position images_per_row section_len current_y)
               (window k m)).
Proof.
  intros Hipr Hlen. induction m as [|m IH]; intros k Hm.
  - constructor.
  - rewrite window_succ. cbn [map]. constructor; [|apply IH; lia].
    intros Hin. apply in_map_iff in Hin as (j & Heq & Hj).
    apply in_window in Hj.
    apply (grid_position_injective images_per_row section_len current_y k j
             Hipr Hlen ltac:(lia)).
    now symmetry.
Qed.

Lemma draw_items_positions (w : world) (folder_path : string)
  (images_per_row : Z) (include_subfolders : bool) (txt_color : rgb)
  (section_len current_y : Z) (items : list image_item) :
  forall st,
    let st' := fold_left (draw_item w folder_path images_per_row
                                    include_subfolders txt_color
                                    section_len current_y) items st in
    exists m,
      (m <= List.length items)%nat /\
      map snd (pastes (ops st')) =
        (map snd (pastes (ops st))
         ++ map (grid_position images_per_row section_len current_y)
                (window (image_idx st) m))%list.
Proof.
  induction items as [|[root image_file] items IH]; intros st; cbn [fold_left].
  - exists 0%nat. cbn. rewrite app_nil_r. split; [lia|reflexivity].
  - cbv zeta in IH |- *.
    destruct (load_thumbnail w txt_color (join root image_file)) as [t|e] eqn:E.
    + destruct (draw_item_pastes w folder_path images_per_row include_subfolders
                  txt_color section_len current_y st root image_file t E)
        as (captions & Hcap & Hstep).
      rewrite Hstep.
      match goal with
      | |- context [fold_left _ items ?s] => destruct (IH s) as (m & Hm & Hp)
      end.
      exists (S m). split; [cbn [List.length]; lia|].
      rewrite Hp. cbn [ops image_idx]. rewrite pastes_app. cbn [pastes].
      rewrite Hcap, map_app. cbn [map snd].
      rewrite window_succ. cbn [map]. now rewrite <- app_assoc.
    + rewrite (draw_item_skips _ _ _ _ _ _ _ _ _ _ _ E).
      match goal with
      | |- context [fold_left _ items ?s] => destruct (IH s) as (m & Hm & Hp)
      end.
      exists m. split; [cbn [List.length]; lia|]. exact Hp.
Qed.

Lemma fresh_positions_stay_distinct (old new : list (Z * Z)) (current_y : Z) :
  NoDup old -> NoDup new ->
  Forall (fun xy => snd xy + (thumbnail_size + text_height + grid_spacing)
                    <= current_y) old ->
  Forall (fun xy => current_y <= snd xy) new ->
  NoDup (old ++ new).
Proof.
  intros Hold Hnew Hbelow Habove.
  induction Hold as [|xy old Hnotin Hold IH]; [exact Hnew|].
  cbn [app]. inversion Hbelow as [|? ? Hxy Hrest]; subst.
  constructor; [|now apply IH].
  intros Hin. apply in_app_or in Hin as [Hin | Hin]; [contradiction|].
  rewrite Forall_forall in Habove. specialize (Habove xy Hin).
  unfold thumbnail_size, text_height, grid_spacing in Hxy. lia.
Qed.

Lemma window_positions_in_band (images_per_row section_len current_y k : Z)
  (m : nat) :
  1 <= images_per_row -> 1 <= section_len ->
  Forall (fun xy =>
            current_y <= snd xy /\
            snd xy + (thumbnail_size + text_height + grid_spacing) <=
              current_y + (section_len + images_per_row - 1) / images_per_row
                          * (thumbnail_size + text_height + grid_spacing))
         (map (grid_position images_per_row section_len current_y)
              (window k m)).
Proof.
  intros Hipr Hlen. apply Forall_forall. intros xy Hin.
  apply in_map_iff in Hin as (i & <- & _).
  pose proof (grid_position_inside images_per_row section_len current_y i
                Hipr Hlen) as H.
  cbv zeta in H. lia.
Qed.

(** The positions pasted so far are distinct and all end above
    [current_y]. *)
Lemma draw_section_grouped_distinct (w : world) (folder_path : string)
  (images_per_row : Z) (txt_color : rgb) (current_y : Z) (p : painter)
  (s : list image_item) :
  1 <= images_per_row ->
  NoDup (map snd (pastes (ops p))) ->
  Forall (fun xy => snd xy + (thumbnail_size + text_height + grid_spacing)
                    <= current_y)
         (map snd (pastes (ops p))) ->
  let st' := draw_section w folder_path images_per_row true txt_color
                          (current_y, p) s in
  NoDup (map snd (pastes (ops (snd st')))) /\
  Forall (fun xy => snd xy + (thumbnail_size + text_height + grid_spacing)
                    <= fst st')
         (map snd (pastes (ops (snd st')))).
Proof.
  intros Hipr Hnodup Hbelow. unfold draw_section.
  destruct s as [|[subfolder_path fname] rest]; cbv beta iota zeta;
    cbn [fst snd].
  - cbn [fold_left]. split; [exact Hnodup|].
    unfold len; cbn [List.length Z.of_nat]. rewrite Z.div_small by lia.
    eapply Forall_impl; [|exact Hbelow]. cbv beta. intros xy Hxy. lia.
  - set (items := (subfolder_path, fname) :: rest).
    set (top := current_y + subfolder_title_height + grid_spacing).
    pose proof (len_cons (subfolder_path, fname) rest) as Hcons.
    pose proof (len_nonneg rest) as Hrest. fold items in Hcons.
    match goal with
    | |- context [fold_left _ items ?st] =>
        destruct (draw_items_positions w folder_path images_per_row true
                    txt_color (len items) top items st) as (m & Hm & Hp)
    end.
    cbn [ops image_idx] in Hp. rewrite pastes_app in Hp. cbn [pastes] in Hp.
    rewrite app_nil_r in Hp. rewrite Hp.
    pose proof (window_positions_in_band images_per_row (len items) top
                  (image_idx p) m Hipr ltac:(lia)) as Hband.
    destruct (rows_ceiling (len items) images_per_row Hipr ltac:(lia))
      as (Hrows & _).
    split.
    + apply (fresh_positions_stay_distinct _ _ top).
      * exact Hnodup.
      * apply window_positions_distinct; [exact Hipr|lia|].
        unfold len. lia.
      * eapply Forall_impl; [|exact Hbelow]. cbv beta. intros xy Hxy.
        subst top. unfold subfolder_title_height, grid_spacing in *. lia.
      * eapply Forall_impl; [|exact Hband]. cbv beta. intros xy Hxy. lia.
    + apply Forall_app. split.
      * eapply Forall_impl; [|exact Hbelow]. cbv beta. intros xy Hxy.
        subst top.
        unfold subfolder_title_height, grid_spacing, thumbnail_size,
          text_height in *. nia.
      * eapply Forall_impl; [|exact Hband]. cbv beta. intros xy Hxy. lia.
Qed.

Lemma draw_sections_grouped_distinct (w : world) (folder_path : string)
  (images_per_row : Z) (txt_color : rgb)
  (image_files : list (list image_item)) :
  1 <= images_per_row ->
  forall current_y p,
    NoDup (map snd (pastes (ops p))) ->
    Forall (fun xy => snd xy + (thumbnail_size + text_height + grid_spacing)
                      <= current_y)
           (map snd (pastes (ops p))) ->
    NoDup (map snd (pastes (ops (snd
      (fold_left (draw_section w folder_path images_per_row true txt_color)
                 image_files (current_y, p)))))).
Proof.
  intros Hipr. induction image_files as [|s l IH]; intros current_y p Hn Hb;
    cbn [fold_left]; [exact Hn|].
  destruct (draw_section_grouped_distinct w folder_path images_per_row
              txt_color current_y p s Hipr Hn Hb) as [Hn' Hb'].
  destruct (draw_section w folder_path images_per_row true txt_color
                         (current_y, p) s) as [cy' p'].
  apply IH; assumption.
Qed.

(** X18: in a successful render no two thumbnails are pasted at the same
    position, whatever fails to load: the running index taken modulo the
    group length still gives each drawn item of a group a cell of its
    own, and groups occupy disjoint bands. *)
Theorem thumbnails_do_not_overlap (w : world) (now : datetime)
  (folder_path : string) (images_per_row : Z) (include_subfolders : bool)
  (background_color text_color : string) (entries : list fs_node)
  (bg_color txt_color : rgb) :
  fs w folder_path = Some entries -> font_exists w = true ->
  font_error w = None ->
  hex_to_rgb background_color = Some bg_color ->
  hex_to_rgb text_color = Some txt_color ->
  1 <= images_per_row ->
  exists r,
    generate_preview w now folder_path images_per_row include_subfolders
                     background_color text_color = Ok r /\
    NoDup (map snd (pastes (drawn r))).
Proof.
  intros Hfs Hfont Hload Hbg Htxt Hipr.
  eexists. split.
  - apply (generate_preview_runs w now folder_path images_per_row
             include_subfolders background_color text_color entries
             bg_color txt_color); assumption.
  - cbn [drawn]. rewrite pastes_app.
    replace (pastes (footer _ _ _ _)) with (@nil (string * (Z * Z)))
      by reflexivity.
    rewrite app_nil_r.
    set (image_files := discover include_subfolders folder_path entries).
    destruct (total_images image_files =? 0) eqn:Etotal; [constructor|].
    apply Z.eqb_neq in Etotal.
    destruct include_subfolders.
    + apply draw_sections_grouped_distinct; [exact Hipr|constructor|constructor].
    + subst image_files. cbn [discover] in *. unfold discover_flat in *.
      set (items := map (fun n : fs_node => (folder_path, node_name n))
                        (filter (fun n : fs_node =>
                                   is_regular n && eligible (node_name n))
                                entries)) in *.
      rewrite total_images_cons in Etotal.
      change (total_images []) with 0 in Etotal.
      pose proof (len_nonneg items) as Hitems.
      cbn [fold_left]. rewrite draw_section_flat. cbn [snd].
      match goal with
      | |- context [fold_left (draw_item _ _ _ _ _ _ ?cy) items ?st] =>
          destruct (draw_items_positions w folder_path images_per_row false
                      txt_color (len items) cy items st) as (m & Hm & Hp)
      end.
      rewrite Hp. cbn [ops image_idx pastes map app].
      apply window_positions_distinct; [exact Hipr|lia|].
      unfold len. lia.
Qed.

Lemma thumbnails_do_not_overlap_witness :
  exists r,
    generate_preview two_folder_host sample_time "/r" 5 true
                     "#FFFFFF" "#000000" = Ok r /\
    NoDup (map snd (pastes (drawn r))).
Proof.
  apply (thumbnails_do_not_overlap two_folder_host sample_time "/r" 5 true
           "#FFFFFF" "#000000" _ (255, 255, 255) (0, 0, 0)
           eq_refl eq_refl eq_refl eq_refl eq_refl ltac:(lia)).
Defined.

(** ** The caption text *)






(** ** Greedy line breaks *)

Lemma greedy_extend_last (getbbox : string -> Z * Z * Z * Z) (max_width : Z)
  (lines : list string) (current_line more : string) :
  current_line <> "" ->
  greedy_breaks getbbox max_width (lines ++ [current_line]) ->
  greedy_breaks getbbox max_width (lines ++ [(current_line ++ more)%string]).
Proof.
  intros Hne. induction lines as [|a [|b l] IH]; cbn [app greedy_breaks].
  - trivial.
  - destruct current_line as [|c cur]; [contradiction|]. cbn [append]. trivial.
  - intros [Hab Hrest]. split; [exact Hab|]. apply IH. exact Hrest.
Qed.

Lemma greedy_snoc (getbbox : string -> Z * Z * Z * Z) (max_width : Z)
  (lines : list string) (current_line : string) (c : ascii) :
  max_width < bbox_width (getbbox (current_line ++ String c "")%string) ->
  greedy_breaks getbbox max_width (lines ++ [current_line]) ->
  greedy_breaks getbbox max_width
                ((lines ++ [current_line]) ++ [String c ""]).
Proof.
  intros Hc. induction lines as [|a [|b l] IH]; cbn [app greedy_breaks].
  - intros _. split; [exact Hc|trivial].
  - intros [Hab _]. split; [exact Hab|]. split; [exact Hc|trivial].
  - intros [Hab Hrest]. split; [exact Hab|]. apply IH. exact Hrest.
Qed.

Lemma wrap_loop_greedy (getbbox : string -> Z * Z * Z * Z) (max_width : Z)
  (text : string) :
  forall lines current_line,
    (current_line = "" -> lines = []) ->
    greedy_breaks getbbox max_width (lines ++ [current_line]) ->
    greedy_breaks getbbox max_width
      (fst (wrap_loop getbbox max_width text lines current_line)
       ++ [snd (wrap_loop getbbox max_width text lines current_line)]) /\
    (snd (wrap_loop getbbox max_width text lines current_line) = "" ->
     fst (wrap_loop getbbox max_width text lines current_line) = []).
Proof.
  induction text as [|c text IH]; intros lines current_line Hempty Hgreedy;
    cbn [wrap_loop]; [now split|].
  destruct (_ <=? _) eqn:E; apply IH.
  - intros Hcur. destruct current_line; [now apply Hempty|discriminate].
  - destruct current_line as [|d cur].
    + rewrite (Hempty eq_refl). cbn. trivial.
    + apply greedy_extend_last; [discriminate|exact Hgreedy].
  - discriminate.
  - apply Z.leb_gt in E. now apply greedy_snoc.
Qed.

(** X20: [wrap_text] breaks lines greedily: wherever a line is followed
    by another, adding the next line's first character to it would
    measure more than [max_width]. *)
Theorem wrap_text_is_greedy (getbbox : string -> Z * Z * Z * Z)
  (max_width : Z) (text : string) :
  greedy_breaks getbbox max_width (wrap_text text getbbox max_width).
Proof.
  unfold wrap_text.
  destruct (wrap_loop_greedy getbbox max_width text [] "") as [Hg He];
    [reflexivity|cbn; trivial|].
  destruct (wrap_loop getbbox max_width text [] "") as [lines current_line].
  cbn [fst snd] in Hg, He.
  destruct current_line; [|exact Hg].
  rewrite (He eq_refl). cbn. trivial.
Qed.

Example wrap_text_breaks_where_forced :
  wrap_text "abcdefgh" (fun s => (0, 0, Z.of_nat (String.length s), 0)) 3 =
  ["abc"; "def"; "gh"].
Proof. reflexivity. Qed.

(** ** The flat grid is compacted *)

(** Within one group, while the running index stays below the group's
    length, the items that load land on consecutive cells from the
    running index on, whichever items in between fail. *)
Lemma items_fill_cells_compactly (w : world) (folder_path : string)
  (images_per_row : Z) (include_subfolders : bool) (txt_color : rgb)
  (section_len current_y : Z) (items : list image_item) :
  forall st,
    0 <= image_idx st -> image_idx st + len items <= section_len ->
    pastes (ops (fold_left (draw_item w folder_path images_per_row
                                      include_subfolders txt_color
                                      section_len current_y) items st)) =
      (pastes (ops st)
       ++ placed images_per_row current_y (image_idx st)
                 (filter (fun item => loads w txt_color (item_path item))
                         items))%list.
Proof.
  induction items as [|[root image_file] items IH]; intros st Hidx Hlen;
    cbn [fold_left filter].
  - cbn [placed]. now rewrite app_nil_r.
  - assert (len ((root, image_file) :: items) = 1 + len items) as Hcons
      by (unfold len; cbn [List.length]; lia).
    pose proof (len_nonneg items) as Hn.
    unfold loads, item_path at 1. cbn [fst snd].
    destruct (load_thumbnail w txt_color (join root image_file))
      as [t|e] eqn:Hload.
    + destruct (draw_item_pastes w folder_path images_per_row
                  include_subfolders txt_color section_len current_y st
                  root image_file t Hload) as (captions & Hcap & Hstep).
      rewrite Hstep, IH by (cbn [image_idx]; lia).
      cbn [image_idx ops placed].
      rewrite pastes_app. cbn [pastes]. rewrite Hcap.
      rewrite (load_thumbnail_source _ _ _ _ Hload).
      rewrite grid_position_cell by lia.
      rewrite <- app_assoc. reflexivity.
    + rewrite (draw_item_skips _ _ _ _ _ _ _ _ _ _ _ Hload).
      rewrite IH by (cbn [image_idx]; lia). reflexivity.
Qed.

(** X21: without sub-folders the grid is compacted: the files that load
    are pasted, in discovery order, on the cells of index 0, 1, 2, ...
    below the top divider, row [i / images_per_row] and column
    [i mod images_per_row], whichever files in between fail to load. *)
Theorem flat_grid_is_compacted (w : world) (now : datetime)
  (folder_path : string) (images_per_row : Z)
  (background_color text_color : string) (entries : list fs_node)
  (bg_color txt_color : rgb) (items : list image_item) :
  fs w folder_path = Some entries -> font_exists w = true ->
  font_error w = None ->
  hex_to_rgb background_color = Some bg_color ->
  hex_to_rgb text_color = Some txt_color ->
  1 <= images_per_row ->
  discover false folder_path entries = [items] ->
  exists r,
    generate_preview w now folder_path images_per_row false
                     background_color text_color = Ok r /\
    pastes (drawn r) =
      placed images_per_row 186 0
             (filter (fun item => loads w txt_color (item_path item)) items).
Proof.
  intros Hfs Hfont Hload Hbg Htxt Hipr Hitems.
  eexists. split.
  - apply (generate_preview_runs w now folder_path images_per_row false
             background_color text_color entries bg_color txt_color);
      assumption.
  - cbn [drawn]. rewrite Hitems. rewrite pastes_app.
    replace (pastes (footer _ _ _ _)) with (@nil (string * (Z * Z)))
      by reflexivity.
    rewrite app_nil_r.
    destruct (total_images [items] =? 0) eqn:Etotal.
    + apply Z.eqb_eq in Etotal. unfold total_images in Etotal.
      cbn [map] in Etotal. rewrite sum_cons in Etotal.
      destruct items; [reflexivity|].
      unfold len, sum in Etotal. cbn in Etotal. lia.
    + cbn [fold_left]. rewrite draw_section_flat. cbn [snd].
      rewrite items_fill_cells_compactly by (cbn [image_idx]; lia).
      reflexivity.
Qed.

Lemma flat_grid_is_compacted_witness :
  exists r,
    generate_preview strip_host sample_time "/r" 5 false "#FFFFFF" "#000000"
      = Ok r /\
    pastes (drawn r) =
      placed 5 186 0
             (filter (fun item => loads strip_host (0, 0, 0) (item_path item))
                     [("/r", "strip.png"); ("/r", "wide.png")]).
Proof.
  apply (flat_grid_is_compacted strip_host sample_time "/r" 5
           "#FFFFFF" "#000000" [File "strip.png" true; File "wide.png" true]
           (255, 255, 255) (0, 0, 0) _
           eq_refl eq_refl eq_refl eq_refl eq_refl ltac:(lia) eq_refl).
Defined.
